(** * TEStribute: request validation and service polling

    A shallow embedding of [TEStribute/models.py] and
    [TEStribute/utils/service_calls.py].  Python values are a small
    universe [PyValue]; dictionaries are insertion-ordered association
    lists (as Python's [dict] is); exceptions, log records and calls to the
    external DRS/TES clients are made explicit by a trace-and-outcome
    monad [M]. *)

From Stdlib Require Import ZArith List String Floats Bool Lia.
From stdpp Require Import base gmap strings.
Import ListNotations.

Set Warnings "-register-all,-inexact-float".

Local Open Scope string_scope.
Local Open Scope list_scope.

(** ** Python values *)

Module Py.

(** [models.Mode] and [models.ChecksumType] are needed as first-class
    values (a mode may be a [Mode] member), so the two enumerations live
    with the value universe. *)
Inductive Mode := random | cost | time.

Inductive ChecksumType := md5 | etag | sha256 | sha512.

(** The values the modelled code inspects.  [VInstance cls] is an instance
    of a user-defined class without [__bool__] or [__len__]. *)
Inductive PyValue :=
| VNone
| VBool (b : bool)
| VInt (z : Z)
| VFloat (f : float)
| VStr (s : string)
| VList (l : list PyValue)
| VTuple (l : list PyValue)
| VMode (m : Mode)
| VChecksumType (t : ChecksumType)
| VInstance (cls : string).

(** Python truth-value testing, as used by [if x] and [not x]. *)
Definition truthy (v : PyValue) : bool :=
  match v with
  | VNone => false
  | VBool b => b
  | VInt z => negb (z =? 0)%Z
  | VFloat f => negb (f =? 0)%float
  | VStr s => negb (String.eqb s "")
  | VList l | VTuple l => match l with [] => false | _ :: _ => true end
  | VMode _ | VChecksumType _ | VInstance _ => true
  end.

(** [isinstance(v, int)]: [bool] is a subclass of [int]; the integer a
    value stands for when it is one. *)
Definition as_int (v : PyValue) : option Z :=
  match v with
  | VInt z => Some z
  | VBool b => Some (if b then 1 else 0)%Z
  | _ => None
  end.

(** [isinstance(v, Mode)], [isinstance(v, str)], [isinstance(v, float)]. *)
Definition as_Mode (v : PyValue) : option Mode :=
  match v with VMode m => Some m | _ => None end.

Definition as_str (v : PyValue) : option string :=
  match v with VStr s => Some s | _ => None end.

Definition as_float (v : PyValue) : option float :=
  match v with VFloat f => Some f | _ => None end.

(** [float(z)] for a Python [int]; exact for [|z| <= 2^53], which covers
    the enumeration values it is applied to. *)
Definition float_of_int (z : Z) : float :=
  match z with
  | Z0 => 0%float
  | Zpos _ => PrimFloat.of_uint63 (Uint63.of_Z z)
  | Zneg _ => (- PrimFloat.of_uint63 (Uint63.of_Z (- z)))%float
  end.

(** *** Insertion-ordered dictionaries with string keys *)

Definition PyDict (V : Type) := list (string * V).

Fixpoint dict_get {V} (k : string) (d : PyDict V) : option V :=
  match d with
  | [] => None
  | (k', v) :: d' => if String.eqb k k' then Some v else dict_get k d'
  end.

Definition dict_mem {V} (k : string) (d : PyDict V) : bool :=
  match dict_get k d with Some _ => true | None => false end.

(** [d[k] = v]: an existing key keeps its position, a new one goes last. *)
Fixpoint dict_set {V} (k : string) (v : V) (d : PyDict V) : PyDict V :=
  match d with
  | [] => [(k, v)]
  | (k', v') :: d' =>
      if String.eqb k k' then (k, v) :: d' else (k', v') :: dict_set k v d'
  end.

Definition dict_keys {V} (d : PyDict V) : list string := map fst d.

Definition dict_truthy {V} (d : PyDict V) : bool :=
  match d with [] => false | _ :: _ => true end.

(** *** Exceptions, log records, external calls *)

Inductive ExcClass :=
| ValidationError
| ResourceUnavailableError
| TypeError
| TimeoutError
| ConnectionError
| HTTPError
| HTTPNotFound
| JSONDecodeError
| MissingSchema
| OtherException (name : string).

Record Exception := Exc { exc_class : ExcClass; exc_msg : string }.

Inductive Outcome (A : Type) :=
| Returned (a : A)
| Raised (e : Exception).
Arguments Returned {A} a.
Arguments Raised {A} e.

(** [SeverityOf cls] is the severity the error taxonomy ties to [cls]. *)
Inductive Severity := DEBUG | WARNING | SeverityOf (cls : ExcClass).

Inductive Service := DRS | TES.

(** A log message: literal text and formatted values, as an f-string has
    them (the rendering of a value is left to the logging sink). *)
Inductive Piece :=
| Lit (s : string)
| Fmt (v : PyValue).

Definition Message := list Piece.

Inductive Event :=
| Log (sev : Severity) (msg : Message)
| Connect (svc : Service) (uri : string)
| GetObject (uri drs_id : string)
| GetTaskInfo (uri : string).

(** A computation: what it logged and called, in order, and how it ended. *)
Definition M (A : Type) : Type := list Event * Outcome A.

Definition ret {A} (a : A) : M A := ([], Returned a).

Definition bind {A B} (m : M A) (k : A -> M B) : M B :=
  match m with
  | (tr, Raised e) => (tr, Raised e)
  | (tr, Returned a) => let '(tr', o) := k a in (tr ++ tr', o)
  end.

Definition raise {A} (e : Exception) : M A := ([], Raised e).

Definition emit (ev : Event) : M unit := ([ev], Returned tt).

Definition logger_debug (msg : Message) : M unit := emit (Log DEBUG msg).

Definition logger_warning (msg : Message) : M unit := emit (Log WARNING msg).

(** An external call: the trace records it, the service decides how it
    ends. *)
Definition external {A} (ev : Event) (o : Outcome A) : M A := ([ev], o).

Definition lift {A} (o : Outcome A) : M A := ([], o).

(** [try: m  except <classes handled by h>: h]; an exception [h] does not
    handle propagates. *)
Definition try_except {A} (m : M A) (h : Exception -> option (M A)) : M A :=
  match m with
  | (tr, Returned a) => (tr, Returned a)
  | (tr, Raised e) =>
      match h e with
      | Some k => let '(tr', o) := k in (tr ++ tr', o)
      | None => (tr, Raised e)
      end
  end.

Definition trace {A} (m : M A) : list Event := fst m.

Definition outcome {A} (m : M A) : Outcome A := snd m.

End Py.
Export Py.

Declare Scope py_scope.
Delimit Scope py_scope with py.
Notation "x <- m ;; k" := (bind m (fun x => k))
  (at level 100, m at next level, right associativity) : py_scope.
Notation "m ;; k" := (bind m (fun _ => k))
  (at level 100, right associativity) : py_scope.
Local Open Scope py_scope.

(** ** TEStribute.errors *)

Module Errors.

(** Modelled from the spec: [TEStribute/errors.py] is not among the
    sources.  Its helper [throw], given an error kind and a message, logs
    the message (severity tied to the error kind) and then raises an error
    of that kind carrying that message. *)
Definition throw {A} (cls : ExcClass) (msg : string) : M A :=
  emit (Log (SeverityOf cls) [Lit msg]) ;; raise (Exc cls msg).

End Errors.

(** ** TEStribute.models *)

Module Models.

Definition Mode_value (m : Mode) : Z :=
  match m with
  | random => (-1)%Z
  | cost => 0%Z
  | time => 1%Z
  end.

(** [Mode[name]]: lookup by member name; [None] stands for [KeyError]. *)
Definition Mode_by_name (name : string) : option Mode :=
  if String.eqb name "random" then Some random
  else if String.eqb name "cost" then Some cost
  else if String.eqb name "time" then Some time
  else None.

(** [Mode(value)]: lookup by member value; [None] stands for
    [ValueError]. *)
Definition Mode_by_value (z : Z) : option Mode :=
  if (z =? -1)%Z then Some random
  else if (z =? 0)%Z then Some cost
  else if (z =? 1)%Z then Some time
  else None.

Definition ChecksumType_value (t : ChecksumType) : Z :=
  match t with
  | md5 => 1%Z
  | etag => 2%Z
  | sha256 => 3%Z
  | sha512 => 4%Z
  end.

Module Checksum.

Record t := { checksum : PyValue; type : PyValue }.

(** [self.checksum = checksum,] and [self.type = type,]: the trailing
    comma makes each right-hand side a one-element tuple. *)
Definition __init__ (checksum : string) (type : ChecksumType) : t :=
  {| checksum := VTuple [VStr checksum];
     type := VTuple [VChecksumType type] |}.

End Checksum.

Module Request.

Record t := {
  resource_requirements : PyValue;
  tes_uris : PyValue;
  drs_ids : PyValue;
  drs_uris : PyValue;
  mode : PyValue
}.

Definition __init__
  (resource_requirements tes_uris drs_ids drs_uris mode : PyValue) : t :=
  {| resource_requirements := resource_requirements;
     tes_uris := tes_uris;
     drs_ids := drs_ids;
     drs_uris := drs_uris;
     mode := mode |}.

Definition Defaults := gmap string PyValue.

(** [sorted(kwargs.items())]: the names are pairwise distinct, so the
    tuple comparison is decided by the name alone. *)
Fixpoint insert_item (it : string * PyValue) (l : list (string * PyValue))
  : list (string * PyValue) :=
  match l with
  | [] => [it]
  | it' :: l' =>
      if String.leb (fst it) (fst it') then it :: l
      else it' :: insert_item it l'
  end.

Definition sorted_items (kwargs : list (string * PyValue))
  : list (string * PyValue) :=
  fold_right insert_item [] kwargs.

(** The loop of [set_defaults] over the sorted items, threading the local
    [return_dict]. *)
Fixpoint set_defaults_loop (defaults : Defaults)
  (items : list (string * PyValue)) (return_dict : PyDict PyValue)
  : M (PyDict PyValue) :=
  match items with
  | [] => ret return_dict
  | (name, value) :: items' =>
      value' <-
        match value with
        | VNone =>
            match defaults !! name with
            | None =>
                logger_warning
                  [Lit "No default value available for object '";
                   Fmt (VStr name); Lit "'."] ;;
                ret value
            | Some dflt =>
                logger_debug
                  [Lit "No value for object '"; Fmt (VStr name);
                   Lit "' is defined. Default value set."] ;;
                ret dflt
            end
        | _ =>
            logger_debug
              [Lit "Object '"; Fmt (VStr name);
               Lit "' is not undefined. No default value set."] ;;
            ret value
        end ;;
      set_defaults_loop defaults items' (dict_set name value' return_dict)
  end.

(** [set_defaults(self, defaults, **kwargs)].  The method has no [return]
    statement and no assignment to an attribute of [self]: the local
    [return_dict] is dropped, the call evaluates to [None] and the instance
    is the one it was given.  The result pairs the instance after the call
    with the computation's trace and value. *)
Definition set_defaults (self : t) (defaults : Defaults)
  (kwargs : list (string * PyValue)) : t * M PyValue :=
  (self,
   _ <- set_defaults_loop defaults (sorted_items kwargs) [] ;;
   ret VNone).

Definition invalid_mode_message (mode : PyValue) : Message :=
  [Lit "Run mode undefined. Invalid mode value passed: "; Fmt mode].

(** [sys.get_int_max_str_digits()], as CPython 3.11 sets it: converting
    an [int] of more decimal digits to [str] raises [ValueError]. *)
Definition int_max_str_digits : Z := 4300.

Definition str_of_int_fails (z : Z) : bool :=
  (10 ^ int_max_str_digits <=? Z.abs z)%Z.
Arguments str_of_int_fails : simpl never.

(** Whether rendering [f"...{v}"] raises: of the values a mode can be,
    only an [int] (not a [bool]) of too many digits. *)
Definition format_fails (v : PyValue) : bool :=
  match v with
  | VInt z => str_of_int_fails z
  | _ => false
  end.

(** [logger.warning(f"Run mode undefined. Invalid mode value passed:
    {mode}")]: the f-string is rendered before [logger.warning] is
    called, so a rendering failure leaves the statement as a
    [ValueError] and nothing is logged. *)
Definition warn_invalid_mode (mode : PyValue) : M unit :=
  if format_fails mode
  then raise (Exc (OtherException "ValueError")
                "Exceeds the limit (4300 digits) for integer string conversion; use sys.set_int_max_str_digits() to increase the limit")
  else logger_warning (invalid_mode_message mode).

(** [sanitize_mode(mode=None)]: declared in the class body with [mode] as
    its only parameter.  The four [isinstance] tests are tried in source
    order; a value that passes none of them falls off the end of the
    function, which evaluates to [None]. *)
Definition sanitize_mode (mode : PyValue) : M (option float) :=
  match as_Mode mode with
  | Some m => ret (Some (float_of_int (Mode_value m)))
  | None =>
  match as_str mode with
  | Some name =>
      match Mode_by_name name with
      | Some m => ret (Some (float_of_int (Mode_value m)))
      | None => warn_invalid_mode mode ;; ret None
      end
  | None =>
  match as_int mode with
  | Some z =>
      match Mode_by_value z with
      | Some m => ret (Some (float_of_int (Mode_value m)))
      | None => warn_invalid_mode mode ;; ret None
      end
  | None =>
  match as_float mode with
  | Some f =>
      if ((f <? 0) || (1 <? f))%float
      then warn_invalid_mode mode ;; ret None
      else ret (Some f)
  | None => ret None
  end end end end.

(** Lines 321-326 of [validate]: the run mode check. *)
Definition check_mode (mode : option float) : M unit :=
  match mode with
  | None => Errors.throw ValidationError "Parameter 'mode' is invalid."
  | Some _ => ret tt
  end.

(** Lines 328-341 of [validate]: the two service checks, in source order. *)
Definition check_services (self : t) : M unit :=
  (if truthy (drs_ids self) && negb (truthy (drs_uris self))
   then Errors.throw ValidationError
          "No services for accesing input objects defined."
   else ret tt) ;;
  (if negb (truthy (tes_uris self))
   then Errors.throw ValidationError "No TES instance has been specified."
   else ret tt).

(** [validate(self, defaults)].  [self.sanitize_mode()] is a bound-method
    call without arguments: Python passes the instance as the first
    positional argument, which [sanitize_mode] names [mode]. *)
Definition validate (self : t) (defaults : option Defaults) : t * M PyValue :=
  let '(self, defaulted) :=
    match defaults with
    | Some defaults =>
        set_defaults self defaults
          [("drs_ids", drs_ids self);
           ("drs_uris", drs_uris self);
           ("mode", mode self);
           ("resource_requirements", resource_requirements self);
           ("tes_uris", tes_uris self)]
    | None => (self, ret VNone)
    end in
  (self,
   defaulted ;;
   mode <- sanitize_mode (VInstance "Request") ;;
   check_mode mode ;;
   check_services self ;;
   ret VNone).

End Request.

End Models.

(** ** TEStribute.utils.service_calls *)

Module ServiceCalls.

(** What [_as_dict()] yields for a DRS object or a task info record, and
    the resource requirements passed as [**resource_requirements]. *)
Definition DrsObjectDict := PyDict PyValue.

Definition TaskInfoDict := PyDict PyValue.

Definition ResourceRequirementsDict := PyDict PyValue.

(** The external services, stable for the duration of a call: how
    [drs_client.Client(uri)], [client.getObject(drs_id)._as_dict()],
    [tes_client.Client(uri)] and
    [client.getTaskInfo(timeout=..., **resource_requirements)._as_dict()]
    end.  An exception is classified by the handled class it is an
    instance of. *)
Record World := {
  drs_client_Client : string -> Outcome unit;
  drs_getObject : string -> string -> Outcome DrsObjectDict;
  tes_client_Client : string -> Outcome unit;
  tes_getTaskInfo :
    string -> PyValue -> ResourceRequirementsDict -> Outcome TaskInfoDict
}.

(** Lines 133-150: the loop over [ids], threading [objects_metadata]. *)
Fixpoint drs_objects_loop (w : World) (uri : string) (ids : list string)
  (objects_metadata : PyDict DrsObjectDict) : M (PyDict DrsObjectDict) :=
  match ids with
  | [] => ret objects_metadata
  | drs_id :: ids' =>
      objects_metadata <-
        try_except
          (obj <- external (GetObject uri drs_id) (drs_getObject w uri drs_id) ;;
           ret (dict_set drs_id obj objects_metadata))
          (fun e =>
             match exc_class e with
             | HTTPNotFound =>
                 Some (logger_debug
                         [Lit "File '"; Fmt (VStr drs_id);
                          Lit "' is not available on DRS '"; Fmt (VStr uri);
                          Lit "'."] ;;
                       ret objects_metadata)
             | TimeoutError =>
                 Some (logger_warning
                         [Lit "DRS unavailable: connection attempt to DRS '";
                          Fmt (VStr uri); Lit "' timed out."] ;;
                       ret objects_metadata)
             | _ => None
             end) ;;
      drs_objects_loop w uri ids' objects_metadata
  end.

(** [_fetch_drs_objects_metadata(uri, *ids, timeout=3)].  The [try] block
    yields [Some tt] for a client and [None] where a handler returned the
    empty dictionary. *)
Definition _fetch_drs_objects_metadata (w : World) (uri : string)
  (ids : list string) (timeout : PyValue) : M (PyDict DrsObjectDict) :=
  client <-
    try_except
      (external (Connect DRS uri) (drs_client_Client w uri) ;; ret (Some tt))
      (fun e =>
         match exc_class e with
         | TimeoutError =>
             Some (logger_warning
                     [Lit "DRS unavailable: connection attempt to DRS '";
                      Fmt (VStr uri); Lit "' timed out."] ;;
                   ret None)
         | ConnectionError | HTTPError | HTTPNotFound | JSONDecodeError
         | MissingSchema =>
             Some (logger_warning
                     [Lit "DRS unavailable: the provided URI '";
                      Fmt (VStr uri); Lit "' could not be resolved."] ;;
                   ret None)
         | _ => None
         end) ;;
  match client with
  | None => ret []
  | Some _ => drs_objects_loop w uri ids []
  end.

(** How Python binds a call's arguments to the parameters
    [(uri, *ids, timeout=3)]: positional arguments are bound first, the
    first one to [uri] and the rest to [ids]; a keyword [uri=] is bound
    afterwards and must find [uri] still unbound. *)
Definition bind_uri_ids (positional : list string) (uri_kw : option string)
  : Outcome (string * list string) :=
  match positional, uri_kw with
  | p :: ps, None => Returned (p, ps)
  | _ :: _, Some _ =>
      Raised (Exc TypeError
        "_fetch_drs_objects_metadata() got multiple values for argument 'uri'")
  | [], Some u => Returned (u, [])
  | [], None =>
      Raised (Exc TypeError
        "_fetch_drs_objects_metadata() missing 1 required positional argument: 'uri'")
  end.

(** Lines 59-63, the call
    [_fetch_drs_objects_metadata(uri=drs_uri, *drs_ids, timeout=timeout)]:
    the unpacked [drs_ids] are the positional arguments, [drs_uri] is the
    keyword [uri]. *)
Definition call__fetch_drs_objects_metadata (w : World) (drs_uri : string)
  (drs_ids : list string) (timeout : PyValue) : M (PyDict DrsObjectDict) :=
  args <- lift (bind_uri_ids drs_ids (Some drs_uri)) ;;
  _fetch_drs_objects_metadata w (fst args) (snd args) timeout.

(** Lines 67-70: [result_dict[drs_id].update({drs_uri: metadata[drs_id]})]
    for every key of [metadata]; [result_dict] is a [defaultdict(dict)]. *)
Definition merge_metadata (drs_uri : string) (metadata : PyDict DrsObjectDict)
  (result_dict : PyDict (PyDict DrsObjectDict)) : PyDict (PyDict DrsObjectDict) :=
  fold_left
    (fun rd '(drs_id, obj) =>
       dict_set drs_id
         (dict_set drs_uri obj
            (match dict_get drs_id rd with Some inner => inner | None => [] end))
         rd)
    metadata result_dict.

(** Lines 76-81: the availability check over [drs_ids]. *)
Fixpoint check_availability (drs_ids : list string)
  (result_dict : PyDict (PyDict DrsObjectDict)) : M unit :=
  match drs_ids with
  | [] => ret tt
  | drs_id :: drs_ids' =>
      if dict_mem drs_id result_dict
      then check_availability drs_ids' result_dict
      else raise (Exc ResourceUnavailableError
                    ("Object '" ++ drs_id
                     ++ "' is not available at any of the specified DRS instances."))
  end.

(** Lines 56-81: the loop over [drs_uris].  The availability check is
    part of the loop body (it is indented under the [for]).  [fetch_at] is
    the per-instance call of lines 59-63. *)
Fixpoint drs_instances_loop (fetch_at : string -> M (PyDict DrsObjectDict))
  (drs_uris drs_ids : list string) (check_results : bool)
  (result_dict : PyDict (PyDict DrsObjectDict))
  : M (PyDict (PyDict DrsObjectDict)) :=
  match drs_uris with
  | [] => ret result_dict
  | drs_uri :: drs_uris' =>
      metadata <- fetch_at drs_uri ;;
      let result_dict :=
        if dict_truthy metadata
        then merge_metadata drs_uri metadata result_dict
        else result_dict in
      (if check_results then check_availability drs_ids result_dict
       else ret tt) ;;
      drs_instances_loop fetch_at drs_uris' drs_ids check_results result_dict
  end.

(** [fetch_drs_objects_metadata(drs_uris, drs_ids, jwt=None,
    check_results=True, timeout=3)]. *)
Definition fetch_drs_objects_metadata (w : World) (drs_uris drs_ids : list string)
  (jwt : option string) (check_results : bool) (timeout : PyValue)
  : M (PyDict (PyDict DrsObjectDict)) :=
  drs_instances_loop
    (fun drs_uri => call__fetch_drs_objects_metadata w drs_uri drs_ids timeout)
    drs_uris drs_ids check_results [].

(** [_fetch_tes_task_info(uri, resource_requirements, timeout=3)]. *)
Definition _fetch_tes_task_info (w : World) (uri : string)
  (resource_requirements : ResourceRequirementsDict) (timeout : PyValue)
  : M TaskInfoDict :=
  client <-
    try_except
      (external (Connect TES uri) (tes_client_Client w uri) ;; ret (Some tt))
      (fun e =>
         match exc_class e with
         | TimeoutError =>
             Some (logger_warning
                     [Lit "TES unavailable: connection attempt to '";
                      Fmt (VStr uri); Lit "' timed out."] ;;
                   ret None)
         | ConnectionError | JSONDecodeError | HTTPNotFound | MissingSchema =>
             Some (logger_warning
                     [Lit "TES unavailable: the provided URI '";
                      Fmt (VStr uri); Lit "' could not be resolved."] ;;
                   ret None)
         | _ => None
         end) ;;
  match client with
  | None => ret []
  | Some _ =>
      try_except
        (external (GetTaskInfo uri)
           (tes_getTaskInfo w uri timeout resource_requirements))
        (fun e =>
           match exc_class e with
           | TimeoutError =>
               Some (logger_warning
                       [Lit "Connection attempt to TES "; Fmt (VStr uri);
                        Lit " timed out. TES unavailable. Skipped."] ;;
                     ret [])
           | _ => None
           end)
  end.

(** Lines 186-197: the loop over [tes_uris]. *)
Fixpoint tes_instances_loop (w : World) (tes_uris : list string)
  (resource_requirements : ResourceRequirementsDict) (timeout : PyValue)
  (result_dict : PyDict TaskInfoDict) : M (PyDict TaskInfoDict) :=
  match tes_uris with
  | [] => ret result_dict
  | uri :: tes_uris' =>
      task_info <- _fetch_tes_task_info w uri resource_requirements timeout ;;
      tes_instances_loop w tes_uris' resource_requirements timeout
        (if dict_truthy task_info then dict_set uri task_info result_dict
         else result_dict)
  end.

(** [fetch_tes_task_info(tes_uris, resource_requirements,
    check_results=True, timeout=3)]. *)
Definition fetch_tes_task_info (w : World) (tes_uris : list string)
  (resource_requirements : ResourceRequirementsDict) (check_results : bool)
  (timeout : PyValue) : M (PyDict TaskInfoDict) :=
  result_dict <-
    tes_instances_loop w tes_uris resource_requirements timeout [] ;;
  if check_results && negb (dict_truthy result_dict)
  then raise (Exc ResourceUnavailableError
                "None of the specified TES instances provided any task info.")
  else ret result_dict.

End ServiceCalls.

(** ** Vocabulary of the statements *)

(** The call of [set_defaults] that [validate] makes, seen from a
    request. *)
Definition validate_kwargs (self : Models.Request.t) : list (string * PyValue) :=
  [("drs_ids", Models.Request.drs_ids self);
   ("drs_uris", Models.Request.drs_uris self);
   ("mode", Models.Request.mode self);
   ("resource_requirements", Models.Request.resource_requirements self);
   ("tes_uris", Models.Request.tes_uris self)].

(** The instances contacted by a computation, in order. *)
Definition connections (tr : list Event) : list (Service * string) :=
  flat_map
    (fun ev => match ev with Connect svc uri => [(svc, uri)] | _ => [] end)
    tr.

(** The distinct elements of a list, in the order of their first
    occurrence. *)
Fixpoint first_occurrences (l : list string) : list string :=
  match l with
  | [] => []
  | x :: l' => x :: filter (fun y => y <> x) (first_occurrences l')
  end.

(** [float('nan')] is the one float that differs from itself. *)
Definition is_nan (f : float) : bool := negb (f =? f)%float.

(** The classes of failure while connecting that C8 names: connection
    timeout, connection failure, malformed response, not found,
    unresolvable URI. *)
Definition unreachable_class (cls : ExcClass) : bool :=
  match cls with
  | TimeoutError | ConnectionError | JSONDecodeError | HTTPNotFound
  | MissingSchema => true
  | _ => false
  end.

(** The non-empty task info record a TES instance answers with, if any. *)
Definition tes_answer (w : ServiceCalls.World)
  (resource_requirements : ServiceCalls.ResourceRequirementsDict)
  (timeout : PyValue) (uri : string) : option ServiceCalls.TaskInfoDict :=
  match outcome (ServiceCalls._fetch_tes_task_info w uri resource_requirements timeout) with
  | Returned task_info => if dict_truthy task_info then Some task_info else None
  | Raised _ => None
  end.

(** What one pass of the loop of [fetch_tes_task_info] does to
    [result_dict], in terms of the instance's answer. *)
Definition record_answer (w : ServiceCalls.World)
  (resource_requirements : ServiceCalls.ResourceRequirementsDict)
  (timeout : PyValue) (result_dict : PyDict ServiceCalls.TaskInfoDict)
  (uri : string) : PyDict ServiceCalls.TaskInfoDict :=
  match tes_answer w resource_requirements timeout uri with
  | Some task_info => dict_set uri task_info result_dict
  | None => result_dict
  end.

(** ** Scenarios *)

Module Scenario.

(** A request with a TES instance, no input objects and a float mode. *)
Definition ready_float : Models.Request.t :=
  Models.Request.__init__ VNone (VList [VStr "https://tes.example.org"])
    (VList []) VNone (VFloat 0.5).

(** The same with the mode given by name. *)
Definition ready_named : Models.Request.t :=
  Models.Request.__init__ VNone (VList [VStr "https://tes.example.org"])
    (VList []) VNone (VStr "cost").

(** Input objects but no DRS instance. *)
Definition objects_without_drs : Models.Request.t :=
  Models.Request.__init__ VNone (VList [VStr "https://tes.example.org"])
    (VList [VStr "obj1"]) (VList []) (VStr "cost").

(** No TES instance. *)
Definition without_tes : Models.Request.t :=
  Models.Request.__init__ VNone (VList []) (VList []) (VList []) (VStr "cost").

(** [Request()]: every field undefined. *)
Definition blank : Models.Request.t :=
  Models.Request.__init__ VNone VNone VNone VNone VNone.

Definition some_defaults : Models.Request.Defaults :=
  <["mode" := VStr "cost"]>
    (<["tes_uris" := VList [VStr "https://tes.example.org"]]> ∅).

Definition object_record (drs_id : string) : ServiceCalls.DrsObjectDict :=
  [("id", VStr drs_id)].

Definition not_found {A} : Outcome A := Raised (Exc HTTPNotFound "Not Found").

Definition task_info_record : ServiceCalls.TaskInfoDict :=
  [("queue_time", VInt 3)].

(** DRS instance "A" reports "o1"; "B" reports "o1" and "o2".  TES
    instance "T2" answers; every other TES instance refuses the
    connection. *)
Definition two_repositories : ServiceCalls.World :=
  {| ServiceCalls.drs_client_Client := fun _ => Returned tt;
     ServiceCalls.drs_getObject := fun uri drs_id =>
       if String.eqb uri "A"
       then (if String.eqb drs_id "o1" then Returned (object_record drs_id)
             else not_found)
       else if String.eqb uri "B"
       then (if String.eqb drs_id "o1" || String.eqb drs_id "o2"
             then Returned (object_record drs_id) else not_found)
       else not_found;
     ServiceCalls.tes_client_Client := fun uri =>
       if String.eqb uri "T2" then Returned tt
       else Raised (Exc ConnectionError "connection refused");
     ServiceCalls.tes_getTaskInfo := fun _ _ _ => Returned task_info_record |}.

(** "o1" is reported by the later instance "B" only. *)
Definition later_only : ServiceCalls.World :=
  {| ServiceCalls.drs_client_Client := fun _ => Returned tt;
     ServiceCalls.drs_getObject := fun uri drs_id =>
       if String.eqb uri "B" && String.eqb drs_id "o1"
       then Returned (object_record drs_id) else not_found;
     ServiceCalls.tes_client_Client := fun _ => Returned tt;
     ServiceCalls.tes_getTaskInfo := fun _ _ _ => Returned [] |}.

(** "A" refuses the connection; "B" reports "o1". *)
Definition first_unreachable : ServiceCalls.World :=
  {| ServiceCalls.drs_client_Client := fun uri =>
       if String.eqb uri "A"
       then Raised (Exc ConnectionError "connection refused")
       else Returned tt;
     ServiceCalls.drs_getObject := fun uri drs_id =>
       if String.eqb uri "B" && String.eqb drs_id "o1"
       then Returned (object_record drs_id) else not_found;
     ServiceCalls.tes_client_Client := fun uri =>
       if String.eqb uri "A"
       then Raised (Exc ConnectionError "connection refused")
       else Returned tt;
     ServiceCalls.tes_getTaskInfo := fun _ _ _ => Returned task_info_record |}.

End Scenario.

(** ** The remaining models of TEStribute.models *)

Module ModelObjects.

(** Member names of [Mode], as the class body declares them. *)
Definition Mode_name (m : Mode) : string :=
  match m with
  | random => "random"
  | cost => "cost"
  | time => "time"
  end.

(** An instance seen through its attributes: name to value, in the order
    the attributes were first set. *)
Definition Attributes := PyDict PyValue.

(** [type(v).__name__]. *)
Definition type_name (v : PyValue) : string :=
  match v with
  | VNone => "NoneType"
  | VBool _ => "bool"
  | VInt _ => "int"
  | VFloat _ => "float"
  | VStr _ => "str"
  | VList _ => "list"
  | VTuple _ => "tuple"
  | VMode _ => "Mode"
  | VChecksumType _ => "ChecksumType"
  | VInstance cls => cls
  end.

Module AccessUris.

(** [setattr(self, k, v)] on an instance of a class that defines neither
    [__slots__] nor [__setattr__].  Three names are data descriptors of
    the class and do not reach the attribute dictionary: [__class__]
    takes a class and [__dict__] a dictionary (no [PyValue] is either),
    [__weakref__] cannot be written.  Every other name is stored in the
    attribute dictionary. *)
Definition setattr (self : Attributes) (k : string) (v : PyValue)
  : Outcome Attributes :=
  if String.eqb k "__class__" then
    Raised (Exc TypeError
      ("__class__ must be set to a class, not '" ++ type_name v ++ "' object"))
  else if String.eqb k "__dict__" then
    Raised (Exc TypeError
      ("__dict__ must be set to a dictionary, not a '" ++ type_name v ++ "'"))
  else if String.eqb k "__weakref__" then
    Raised (Exc (OtherException "AttributeError")
      "attribute '__weakref__' of 'AccessUris' objects is not writable")
  else Returned (dict_set k v self).

(** [for k, v in kwargs.items(): setattr(self, k, v)]. *)
Fixpoint setattr_items (kwargs : PyDict PyValue) (self : Attributes)
  : Outcome Attributes :=
  match kwargs with
  | [] => Returned self
  | (k, v) :: kwargs' =>
      match setattr self k v with
      | Returned self' => setattr_items kwargs' self'
      | Raised e => Raised e
      end
  end.

(** The body of [__init__(self, tes_uri, **kwargs)]. *)
Definition __init__ (tes_uri : string) (kwargs : PyDict PyValue)
  : Outcome Attributes :=
  setattr_items kwargs [("tes_uri", VStr tes_uri)].

(** Binding the keywords of [AccessUris(tes_uri, **kwargs)]: the first
    keyword that names one of the two parameters is refused. *)
Fixpoint bind_kwargs (kwargs : PyDict PyValue) : Outcome unit :=
  match kwargs with
  | [] => Returned tt
  | (k, _) :: kwargs' =>
      if String.eqb k "self" || String.eqb k "tes_uri" then
        Raised (Exc TypeError
          ("AccessUris.__init__() got multiple values for argument '"
           ++ k ++ "'"))
      else bind_kwargs kwargs'
  end.

(** [AccessUris(tes_uri, **kwargs)]: the instance's attributes, or the
    exception of the call. *)
Definition new (tes_uri : string) (kwargs : PyDict PyValue)
  : Outcome Attributes :=
  match bind_kwargs kwargs with
  | Returned _ => __init__ tes_uri kwargs
  | Raised e => Raised e
  end.

(** The keywords the call or [setattr] refuses. *)
Definition refused : list string :=
  ["self"; "tes_uri"; "__class__"; "__dict__"; "__weakref__"].

End AccessUris.

(** *** Default arguments

    A default such as [items: Iterable[str] = []] is evaluated once, when
    the [def] statement runs; every call that omits the argument receives
    that one list object.  Lists therefore live in a store and are named
    by references. *)

Definition Ref := nat.

Definition Store := list (list PyValue).

(** The default lists of [DrsIds.__init__] and [DrsUris.__init__], in the
    order the two classes are defined. *)
Definition DrsIds_items_default : Ref := 0.

Definition DrsUris_items_default : Ref := 1.

(** The store once the module has been imported: the two defaults exist
    and are empty. *)
Definition imported : Store := [[]; []].

(** [some_list.append(x)] on the list a reference names. *)
Definition list_append (r : Ref) (x : PyValue) (st : Store) : Store :=
  alter (fun l => l ++ [x]) r st.

Module DrsIds.

Record t := { items : Ref }.

(** [__init__(self, items=[])]: [self.items = items]. *)
Definition __init__ (items : option Ref) : t :=
  {| items := match items with
              | Some r => r
              | None => DrsIds_items_default
              end |}.

End DrsIds.

Module DrsUris.

Record t := { items : Ref }.

(** [__init__(self, items=[])]: [self.items = items]. *)
Definition __init__ (items : option Ref) : t :=
  {| items := match items with
              | Some r => r
              | None => DrsUris_items_default
              end |}.

End DrsUris.

End ModelObjects.

(** ** The geolocation part of TEStribute.utils.service_calls *)

Module Geo.

(** What [DbIpCity.get] answers with. *)
Record Location := {
  city : PyValue;
  region : PyValue;
  country : PyValue;
  latitude : PyValue;
  longitude : PyValue
}.

(** The libraries [ip_distance] relies on: [urlparse(url).netloc],
    [socket.gethostbyname(host)], [DbIpCity.get(ip, api_key=key)] and
    [geodesic(p1, p2).km]. *)
Record World := {
  urlparse_netloc : string -> Outcome string;
  gethostbyname : string -> Outcome string;
  DbIpCity_get : string -> string -> Outcome Location;
  geodesic_km : PyValue * PyValue -> PyValue * PyValue -> Outcome PyValue
}.

(** A value of the returned dictionary: a place or the distance. *)
Inductive Field :=
| Place (d : PyDict PyValue)
| Km (v : PyValue).

Inductive Event :=
| Parse (url : string)
| Resolve (host : string)
| Locate (ip api_key : string)
| Geodesic (p1 p2 : PyValue * PyValue)
| Debug (url1 url2 : string) (ret : PyDict Field).

Definition G (A : Type) : Type := list Event * Outcome A.

Definition gret {A} (a : A) : G A := ([], Returned a).

Definition gbind {A B} (m : G A) (k : A -> G B) : G B :=
  match m with
  | (tr, Raised e) => (tr, Raised e)
  | (tr, Returned a) => let '(tr', o) := k a in (tr ++ tr', o)
  end.

Definition call {A} (ev : Event) (o : Outcome A) : G A := ([ev], o).

(** [try: m  except cls: raise]: the handler raises the exception it
    caught, so an exception leaves the block as it entered it, of class
    [cls] or not. *)
Definition try_reraise {A} (cls : ExcClass) (m : G A) : G A :=
  match m with
  | (tr, Raised e) => (tr, Raised e)
  | (tr, Returned a) => (tr, Returned a)
  end.

Definition place (loc : Location) : PyDict PyValue :=
  [("city", city loc); ("region", region loc); ("country", country loc)].

(** [ip_distance(url1, url2)]. *)
Definition ip_distance (w : World) (url1 url2 : string) : G (PyDict Field) :=
  gbind
    (try_reraise (OtherException "socket.gaierror")
       (gbind (call (Parse url1) (urlparse_netloc w url1)) (fun host1 =>
        gbind (call (Resolve host1) (gethostbyname w host1)) (fun ip1 =>
        gbind (call (Parse url2) (urlparse_netloc w url2)) (fun host2 =>
        gbind (call (Resolve host2) (gethostbyname w host2)) (fun ip2 =>
        gret (ip1, ip2)))))))
    (fun '(ip1, ip2) =>
  gbind
    (try_reraise (OtherException "InvalidRequestError")
       (gbind (call (Locate ip1 "free") (DbIpCity_get w ip1 "free")) (fun ip1_loc =>
        gbind (call (Locate ip2 "free") (DbIpCity_get w ip2 "free")) (fun ip2_loc =>
        gret (ip1_loc, ip2_loc)))))
    (fun '(ip1_loc, ip2_loc) =>
  let p1 := (latitude ip1_loc, longitude ip1_loc) in
  let p2 := (latitude ip2_loc, longitude ip2_loc) in
  gbind (call (Geodesic p1 p2) (geodesic_km w p1 p2)) (fun km =>
  let ret :=
    [("source", Place (place ip1_loc));
     ("destination", Place (place ip2_loc));
     ("distance", Km km)] in
  gbind (([Debug url1 url2 ret], Returned tt) : G unit) (fun _ =>
  gret ret)))).

Definition is_debug (ev : Event) : bool :=
  match ev with Debug _ _ _ => true | _ => false end.

End Geo.

(** ** Further vocabulary *)

(** The record [set_defaults] logs for one keyword argument. *)
Definition defaults_record (defaults : Models.Request.Defaults)
  (item : string * PyValue) : Event :=
  match snd item with
  | VNone =>
      match defaults !! fst item with
      | None =>
          Log WARNING [Lit "No default value available for object '";
                       Fmt (VStr (fst item)); Lit "'."]
      | Some _ =>
          Log DEBUG [Lit "No value for object '"; Fmt (VStr (fst item));
                     Lit "' is defined. Default value set."]
      end
  | _ =>
      Log DEBUG [Lit "Object '"; Fmt (VStr (fst item));
                 Lit "' is not undefined. No default value set."]
  end.

(** Filling a dictionary from the keys that have an answer. *)
Definition collect {V} (answer : string -> option V) (d : PyDict V)
  (k : string) : PyDict V :=
  match answer k with
  | Some v => dict_set k v d
  | None => d
  end.

(** The object record a DRS instance reports for an identifier, if any. *)
Definition drs_report (w : ServiceCalls.World) (uri drs_id : string)
  : option ServiceCalls.DrsObjectDict :=
  match ServiceCalls.drs_getObject w uri drs_id with
  | Returned obj => Some obj
  | Raised _ => None
  end.

(** The per-object failures [_fetch_drs_objects_metadata] handles. *)
Definition skipped_class (cls : ExcClass) : bool :=
  match cls with
  | HTTPNotFound | TimeoutError => true
  | _ => false
  end.

(** The connection failures [_fetch_drs_objects_metadata] handles. *)
Definition drs_unreachable_class (cls : ExcClass) : bool :=
  match cls with
  | TimeoutError | ConnectionError | HTTPError | HTTPNotFound
  | JSONDecodeError | MissingSchema => true
  | _ => false
  end.

(** The objects requested from DRS instances by a computation, in order. *)
Definition requests (tr : list Event) : list (string * string) :=
  flat_map
    (fun ev => match ev with GetObject uri drs_id => [(uri, drs_id)] | _ => [] end)
    tr.

(** [result_dict[drs_id][drs_uri]], when both keys are there. *)
Definition lookup2 {V} (drs_id drs_uri : string) (result_dict : PyDict (PyDict V))
  : option V :=
  match dict_get drs_id result_dict with
  | Some inner => dict_get drs_uri inner
  | None => None
  end.

(** The non-empty task info record the TES client answers with for an
    instance, read off the client alone: the connection is established
    and the request returns a record that is not empty. *)
Definition tes_reply (w : ServiceCalls.World)
  (resource_requirements : ServiceCalls.ResourceRequirementsDict)
  (timeout : PyValue) (uri : string) : option ServiceCalls.TaskInfoDict :=
  match ServiceCalls.tes_client_Client w uri with
  | Returned _ =>
      match ServiceCalls.tes_getTaskInfo w uri timeout resource_requirements with
      | Returned task_info =>
          if dict_truthy task_info then Some task_info else None
      | Raised _ => None
      end
  | Raised _ => None
  end.

Definition tes_connects (w : ServiceCalls.World) (uri : string) : bool :=
  match ServiceCalls.tes_client_Client w uri with
  | Returned _ => true
  | Raised _ => false
  end.

(** A TES instance whose client fails only in the ways
    [_fetch_tes_task_info] has a handler for: the five connection
    failures, and a timeout of the task info request. *)
Definition tes_handled (w : ServiceCalls.World)
  (resource_requirements : ServiceCalls.ResourceRequirementsDict)
  (timeout : PyValue) (uri : string) : Prop :=
  (forall e, ServiceCalls.tes_client_Client w uri = Raised e ->
             unreachable_class (exc_class e) = true)
  /\ (forall e,
        ServiceCalls.tes_client_Client w uri = Returned tt ->
        ServiceCalls.tes_getTaskInfo w uri timeout resource_requirements
        = Raised e ->
        exc_class e = TimeoutError).

(** The task info requests made by a computation, in order. *)
Definition task_info_requests (tr : list Event) : list string :=
  flat_map
    (fun ev => match ev with GetTaskInfo uri => [uri] | _ => [] end)
    tr.

(** C7 as it is worded, for one call: the call returns a mapping whose
    keys are the instances that answered with a non-empty record, or,
    with [check_results] set and no such instance, raises the
    [ResourceUnavailableError]. *)
Definition tes_aggregation_as_claimed (w : ServiceCalls.World)
  (tes_uris : list string)
  (resource_requirements : ServiceCalls.ResourceRequirementsDict)
  (check_results : bool) (timeout : PyValue) : Prop :=
  let run :=
    ServiceCalls.fetch_tes_task_info w tes_uris resource_requirements
      check_results timeout in
  let answering :=
    filter (fun uri => is_Some (tes_reply w resource_requirements timeout uri))
      tes_uris in
  (exists result_dict,
     outcome run = Returned result_dict
     /\ dict_keys result_dict = first_occurrences answering)
  \/ (check_results = true /\ answering = []
      /\ outcome run
         = Raised (Exc ResourceUnavailableError
                     "None of the specified TES instances provided any task info.")).

Module Scenario2.

(** A TES instance that accepts the connection and then breaks it during
    the task info request. *)
Definition breaking_tes : ServiceCalls.World :=
  {| ServiceCalls.drs_client_Client := fun _ => Returned tt;
     ServiceCalls.drs_getObject := fun _ _ => Scenario.not_found;
     ServiceCalls.tes_client_Client := fun _ => Returned tt;
     ServiceCalls.tes_getTaskInfo := fun _ _ _ =>
       Raised (Exc ConnectionError "connection reset") |}.

Definition berlin : Geo.Location :=
  {| Geo.city := VStr "Berlin"; Geo.region := VStr "Berlin";
     Geo.country := VStr "DE";
     Geo.latitude := VFloat 52.5; Geo.longitude := VFloat 13.4 |}.

Definition basel : Geo.Location :=
  {| Geo.city := VStr "Basel"; Geo.region := VStr "Basel-Stadt";
     Geo.country := VStr "CH";
     Geo.latitude := VFloat 47.5; Geo.longitude := VFloat 7.6 |}.

(** Two resolvable hosts with known places; any other host fails to
    resolve. *)
Definition atlas : Geo.World :=
  {| Geo.urlparse_netloc := fun url =>
       if String.eqb url "https://tes.example.org/api" then Returned "tes.example.org"
       else if String.eqb url "https://drs.example.org/api" then Returned "drs.example.org"
       else Returned "nowhere.invalid";
     Geo.gethostbyname := fun host =>
       if String.eqb host "tes.example.org" then Returned "192.0.2.1"
       else if String.eqb host "drs.example.org" then Returned "192.0.2.2"
       else Raised (Exc (OtherException "socket.gaierror") "Name or service not known");
     Geo.DbIpCity_get := fun ip _ =>
       if String.eqb ip "192.0.2.1" then Returned berlin else Returned basel;
     Geo.geodesic_km := fun _ _ => Returned (VFloat 687.5) |}.

(** A DRS instance "A" on which "o1" is found, "o2" is not, "o3" times
    out and "o4" breaks the connection. *)
Definition flaky_repository : ServiceCalls.World :=
  {| ServiceCalls.drs_client_Client := fun uri =>
       if String.eqb uri "H" then Raised (Exc HTTPError "500")
       else Returned tt;
     ServiceCalls.drs_getObject := fun _ drs_id =>
       if String.eqb drs_id "o1" then Returned (Scenario.object_record drs_id)
       else if String.eqb drs_id "o3" then Raised (Exc TimeoutError "timed out")
       else if String.eqb drs_id "o4" then Raised (Exc ConnectionError "reset")
       else Scenario.not_found;
     ServiceCalls.tes_client_Client := fun uri =>
       if String.eqb uri "H" then Raised (Exc HTTPError "500")
       else Returned tt;
     ServiceCalls.tes_getTaskInfo := fun _ _ _ => Returned Scenario.task_info_record |}.

End Scenario2.

(** * Properties *)

Import Models ServiceCalls.

(** ** Checksum *)

(** C9 (the code departs from it): a [Checksum] built from the string [s]
    and the checksum type [t] holds the one-element tuples [(s,)] and
    [(t,)] in its two fields, not the plain string and the plain type. *)
Theorem Checksum_init_stores_tuples (s : string) (t : ChecksumType) :
  Checksum.checksum (Checksum.__init__ s t) = VTuple [VStr s]
  /\ Checksum.type (Checksum.__init__ s t) = VTuple [VChecksumType t]
  /\ Checksum.checksum (Checksum.__init__ s t) <> VStr s
  /\ Checksum.type (Checksum.__init__ s t) <> VChecksumType t.
Proof.
  repeat split; simpl; discriminate.
Qed.

(** ** Floats *)

Lemma SFleb_not_SFltb (x y : spec_float) :
  SFleb x y = true -> SFltb y x = false.
Proof.
  unfold SFleb, SFltb.
  destruct x as [sx|sx| |sx mx ex], y as [sy|sy| |sy my ey]; simpl;
    try (destruct sx); try (destruct sy); simpl; try easy.
  all: rewrite (Z.compare_antisym ex ey);
    destruct (ex ?= ey)%Z; simpl; try easy.
  all: change (Pos.compare_cont Eq my mx) with (Pos.compare my mx);
    change (Pos.compare_cont Eq mx my) with (Pos.compare mx my);
    rewrite (Pos.compare_antisym mx my);
    destruct (mx ?= my)%positive; simpl; easy.
Qed.

Lemma float_in_unit_not_outside (f : float) :
  (0 <=? f)%float = true -> (f <=? 1)%float = true ->
  ((f <? 0) || (1 <? f))%float = false.
Proof.
  intros H0 H1.
  rewrite FloatAxioms.leb_spec in H0, H1. rewrite !FloatAxioms.ltb_spec.
  rewrite (SFleb_not_SFltb _ _ H0), (SFleb_not_SFltb _ _ H1). reflexivity.
Qed.

Lemma SF_total (x y : spec_float) :
  SFleb x y = true \/ SFltb y x = true \/ SFeqb x x = false \/ SFeqb y y = false.
Proof.
  unfold SFleb, SFltb, SFeqb.
  destruct x as [sx|sx| |sx mx ex], y as [sy|sy| |sy my ey]; simpl;
    try (destruct sx); try (destruct sy); simpl; auto.
  all: rewrite (Z.compare_antisym ex ey);
    destruct (ex ?= ey)%Z; simpl; auto.
  all: change (Pos.compare_cont Eq my mx) with (Pos.compare my mx);
    change (Pos.compare_cont Eq mx my) with (Pos.compare mx my);
    rewrite (Pos.compare_antisym mx my);
    destruct (mx ?= my)%positive; simpl; auto.
Qed.

(** Every float is in the unit interval, below 0 or above 1, or NaN. *)
Lemma float_cover (f : float) :
  ((0 <=? f) && (f <=? 1) = true)%float
  \/ ((f <? 0) || (1 <? f) = true)%float \/ is_nan f = true.
Proof.
  unfold is_nan. rewrite !FloatAxioms.leb_spec, !FloatAxioms.ltb_spec, FloatAxioms.eqb_spec.
  assert (Z0 : SFeqb (Prim2SF 0%float) (Prim2SF 0%float) = true) by reflexivity.
  assert (Z1 : SFeqb (Prim2SF 1%float) (Prim2SF 1%float) = true) by reflexivity.
  destruct (SF_total (Prim2SF 0%float) (Prim2SF f)) as [H|[H|[H|H]]].
  - destruct (SF_total (Prim2SF f) (Prim2SF 1%float)) as [H'|[H'|[H'|H']]].
    + left. now rewrite H, H'.
    + right; left. rewrite H'. apply orb_true_r.
    + right; right. now rewrite H'.
    + congruence.
  - right; left. now rewrite H.
  - congruence.
  - right; right. now rewrite H.
Qed.

(** ** Mode normalization *)

(** C10: a boolean passes the [isinstance(mode, int)] test and is looked
    up as the integer it equals: [True] normalizes to 1.0 (time) and
    [False] to 0.0 (cost), without any warning. *)
Theorem sanitize_mode_bool :
  Request.sanitize_mode (VBool true) = ret (Some 1%float)
  /\ Request.sanitize_mode (VBool false) = ret (Some 0%float)
  /\ (forall b : bool,
        as_Mode (VBool b) = None /\ as_str (VBool b) = None
        /\ as_int (VBool b) = Some (if b then 1 else 0)%Z
        /\ Request.sanitize_mode (VBool b)
           = Request.sanitize_mode (VInt (if b then 1 else 0))).
Proof.
  split; [reflexivity | split; [reflexivity | ]].
  intros [|]; repeat split.
Qed.

(** NaN is neither below 0 nor above 1: it is handed back unchanged. *)
Lemma sanitize_mode_nan :
  is_nan nan = true
  /\ Request.sanitize_mode (VFloat nan) = ret (Some nan).
Proof. split; reflexivity. Qed.

(** The table of [sanitize_mode].  The names "cost", "time", "random"
    give 0.0, 1.0, -1.0 and so do the integers 0, 1, -1; a [Mode] member
    gives its value as a float; a float [f] with [0 <= f <= 1] is
    returned unchanged; a float below 0 or above 1, any other string, any
    other integer that can be rendered in the warning, and a value that
    is no [Mode], [str], [int] or [float] all give [None]; any other
    integer of too many digits raises the [ValueError] of the rendering. *)
Lemma sanitize_mode_table :
  (Request.sanitize_mode (VStr "cost") = ret (Some 0%float)
   /\ Request.sanitize_mode (VStr "time") = ret (Some 1%float)
   /\ Request.sanitize_mode (VStr "random") = ret (Some (-1)%float))
  /\ (Request.sanitize_mode (VInt 0) = ret (Some 0%float)
      /\ Request.sanitize_mode (VInt 1) = ret (Some 1%float)
      /\ Request.sanitize_mode (VInt (-1)) = ret (Some (-1)%float))
  /\ (forall m : Mode,
        Request.sanitize_mode (VMode m)
        = ret (Some match m with
                    | cost => 0%float
                    | time => 1%float
                    | random => (-1)%float
                    end))
  /\ (forall f : float,
        (0 <=? f)%float = true -> (f <=? 1)%float = true ->
        Request.sanitize_mode (VFloat f) = ret (Some f))
  /\ (forall f : float,
        (f <? 0)%float = true \/ (1 <? f)%float = true ->
        outcome (Request.sanitize_mode (VFloat f)) = Returned None)
  /\ (forall s : string,
        s <> "cost" -> s <> "time" -> s <> "random" ->
        outcome (Request.sanitize_mode (VStr s)) = Returned None)
  /\ (forall z : Z,
        z <> 0%Z -> z <> 1%Z -> z <> (-1)%Z ->
        Request.sanitize_mode (VInt z)
        = if Request.str_of_int_fails z
          then raise (Exc (OtherException "ValueError")
                        "Exceeds the limit (4300 digits) for integer string conversion; use sys.set_int_max_str_digits() to increase the limit")
          else ([Log WARNING (Request.invalid_mode_message (VInt z))],
                Returned None))
  /\ (forall v : PyValue,
        as_Mode v = None -> as_str v = None -> as_int v = None ->
        as_float v = None ->
        Request.sanitize_mode v = ret None).
Proof.
  split; [repeat split|]. split; [repeat split|].
  split; [intros []; reflexivity|].
  split.
  { intros f H0 H1. unfold Request.sanitize_mode. simpl.
    now rewrite (float_in_unit_not_outside f H0 H1). }
  split.
  { intros f H. unfold Request.sanitize_mode. simpl.
    assert (Hout : ((f <? 0) || (1 <? f))%float = true)
      by (destruct H as [H|H]; rewrite H; [reflexivity|apply orb_true_r]).
    now rewrite Hout. }
  split.
  { intros s Hc Ht Hr. unfold Request.sanitize_mode, Mode_by_name. simpl.
    apply String.eqb_neq in Hc, Ht, Hr. now rewrite Hr, Hc, Ht. }
  split.
  { intros z H0 H1 Hm.
    unfold Request.sanitize_mode, Mode_by_value, Request.warn_invalid_mode.
    cbn [as_Mode as_str as_int Request.format_fails].
    apply Z.eqb_neq in H0, H1, Hm. rewrite Hm, H0, H1.
    now destruct (Request.str_of_int_fails z). }
  intros v HM Hs Hi Hf. unfold Request.sanitize_mode.
  now rewrite HM, Hs, Hi, Hf.
Qed.

(** Examples: 0.42 is kept; 1.5, -0.1, "bogus", the integer 2 and [None]
    are rejected. *)
Lemma sanitize_mode_table_witness :
  Request.sanitize_mode (VFloat 0.42) = ret (Some 0.42%float)
  /\ outcome (Request.sanitize_mode (VFloat 1.5)) = Returned None
  /\ outcome (Request.sanitize_mode (VFloat (-0.1))) = Returned None
  /\ outcome (Request.sanitize_mode (VStr "bogus")) = Returned None
  /\ outcome (Request.sanitize_mode (VInt 2)) = Returned None
  /\ Request.sanitize_mode VNone = ret None.
Proof.
  destruct sanitize_mode_table as (_ & _ & _ & Hin & Hout & Hstr & Hint & Hother).
  split; [apply Hin; reflexivity|].
  split; [apply Hout; right; reflexivity|].
  split; [apply Hout; left; reflexivity|].
  split; [apply Hstr; discriminate|].
  split; [rewrite Hint by discriminate; vm_compute; reflexivity|].
  apply Hother; reflexivity.
Defined.

(** C6 (the code departs from it): NaN is a float that is not in the
    interval [0, 1], and [sanitize_mode] hands it back unchanged instead
    of [None]; and an integer that is no mode value and has more than
    4300 digits gives no [None] either: rendering the warning raises a
    [ValueError], which leaves [sanitize_mode]. *)
Theorem sanitize_mode_passes_nan :
  ((0 <=? nan) && (nan <=? 1))%float = false
  /\ is_nan nan = true
  /\ Request.sanitize_mode (VFloat nan) = ret (Some nan)
  /\ Mode_by_value (10 ^ 4300) = None
  /\ Request.sanitize_mode (VInt (10 ^ 4300))
     = raise (Exc (OtherException "ValueError")
                "Exceeds the limit (4300 digits) for integer string conversion; use sys.set_int_max_str_digits() to increase the limit").
Proof.
  split; [vm_compute; reflexivity|].
  split; [vm_compute; reflexivity|].
  split; [vm_compute; reflexivity|].
  split; vm_compute; reflexivity.
Qed.

(** ** Request validation *)

Lemma set_defaults_loop_returns (defaults : Request.Defaults)
  (items : list (string * PyValue)) (return_dict : PyDict PyValue) :
  exists d, outcome (Request.set_defaults_loop defaults items return_dict) = Returned d.
Proof.
  revert return_dict.
  induction items as [|[name value] items IH]; intros return_dict.
  - now exists return_dict.
  - assert (step : forall (tr : list Event) (v : PyValue),
      exists d,
        outcome (x <- ((tr, Returned v) : M PyValue) ;;
                 Request.set_defaults_loop defaults items
                   (dict_set name x return_dict)) = Returned d).
    { intros tr v. simpl.
      destruct (IH (dict_set name v return_dict)) as [d Hd].
      destruct (Request.set_defaults_loop defaults items _) as [tr' o].
      simpl in *. now exists d. }
    simpl. destruct value; try apply step.
    destruct (defaults !! name); apply step.
Qed.

(** [set_defaults] hands the instance back as it received it and
    evaluates to [None], whatever the defaults are. *)
Lemma set_defaults_inert (self : Request.t) (defaults : Request.Defaults)
  (kwargs : list (string * PyValue)) :
  fst (Request.set_defaults self defaults kwargs) = self
  /\ outcome (snd (Request.set_defaults self defaults kwargs)) = Returned VNone.
Proof.
  split; [reflexivity|].
  unfold Request.set_defaults. simpl.
  destruct (set_defaults_loop_returns defaults (Request.sorted_items kwargs) [])
    as [d Hd].
  destruct (Request.set_defaults_loop defaults _ _) as [tr o].
  simpl in *. now subst o.
Qed.

(** The instance is not an instance of [Mode], [str], [int] or [float]. *)
Lemma sanitize_mode_of_instance (cls : string) :
  Request.sanitize_mode (VInstance cls) = ret None.
Proof. reflexivity. Qed.

(** Whatever the request holds, [validate] ends in the run mode error and
    leaves the instance as it was. *)
Lemma validate_always_raises (self : Request.t) (defaults : option Request.Defaults) :
  fst (Request.validate self defaults) = self
  /\ outcome (snd (Request.validate self defaults))
     = Raised (Exc ValidationError "Parameter 'mode' is invalid.").
Proof.
  unfold Request.validate.
  destruct defaults as [defaults|].
  - destruct (set_defaults_inert self defaults (validate_kwargs self)) as [Hs Ho].
    unfold validate_kwargs in *.
    destruct (Request.set_defaults self defaults _) as [self' [tr o]].
    simpl in *. subst. split; reflexivity.
  - split; reflexivity.
Qed.

(** Past the run mode check, the two service checks fire in source order
    with the source's messages. *)
Lemma check_services_order (self : Request.t) :
  outcome (Request.check_services self)
  = if truthy (Request.drs_ids self) && negb (truthy (Request.drs_uris self))
    then Raised (Exc ValidationError
                   "No services for accesing input objects defined.")
    else if negb (truthy (Request.tes_uris self))
    then Raised (Exc ValidationError "No TES instance has been specified.")
    else Returned tt.
Proof.
  unfold Request.check_services.
  destruct (truthy (Request.drs_ids self) && negb (truthy (Request.drs_uris self)));
    [reflexivity|].
  destruct (negb (truthy (Request.tes_uris self))); reflexivity.
Qed.

(** C1 (the code departs from it): a request with a TES instance, no
    input objects and a normalizable stored mode (the float 0.5, the name
    "cost") does not pass [validate]: the call raises the run mode error,
    although the stored mode itself normalizes. *)
Theorem validate_rejects_ready_request :
  outcome (Request.sanitize_mode (Request.mode Scenario.ready_float))
    = Returned (Some 0.5%float)
  /\ Request.validate Scenario.ready_float None
     = (Scenario.ready_float,
        ([Log (SeverityOf ValidationError) [Lit "Parameter 'mode' is invalid."]],
         Raised (Exc ValidationError "Parameter 'mode' is invalid.")))
  /\ outcome (Request.sanitize_mode (Request.mode Scenario.ready_named))
     = Returned (Some 0%float)
  /\ Request.validate Scenario.ready_named None
     = (Scenario.ready_named,
        ([Log (SeverityOf ValidationError) [Lit "Parameter 'mode' is invalid."]],
         Raised (Exc ValidationError "Parameter 'mode' is invalid."))).
Proof. repeat split. Qed.

(** C2 (the code departs from it): with every field undefined and
    defaults for [mode] and [tes_uris], the loop of [set_defaults]
    computes a dictionary holding the two defaults, yet after
    [set_defaults], and after [validate], both fields are still [None]. *)
Theorem set_defaults_leaves_fields_undefined :
  Scenario.some_defaults !! "mode" = Some (VStr "cost")
  /\ Request.mode Scenario.blank = VNone
  /\ outcome (Request.set_defaults_loop Scenario.some_defaults
                (Request.sorted_items (validate_kwargs Scenario.blank)) [])
     = Returned [("drs_ids", VNone); ("drs_uris", VNone);
                 ("mode", VStr "cost"); ("resource_requirements", VNone);
                 ("tes_uris", VList [VStr "https://tes.example.org"])]
  /\ Request.mode
       (fst (Request.set_defaults Scenario.blank Scenario.some_defaults
               (validate_kwargs Scenario.blank))) = VNone
  /\ Request.tes_uris
       (fst (Request.set_defaults Scenario.blank Scenario.some_defaults
               (validate_kwargs Scenario.blank))) = VNone
  /\ Request.mode (fst (Request.validate Scenario.blank (Some Scenario.some_defaults)))
     = VNone
  /\ Request.tes_uris (fst (Request.validate Scenario.blank (Some Scenario.some_defaults)))
     = VNone.
Proof. repeat split; vm_compute; reflexivity. Qed.

(** C5 (the code departs from it): for a request with input objects and
    no DRS instance, and for a request without TES instance, [validate]
    raises a [ValidationError], but its message is the run mode one: the
    two service checks are never reached. *)
Theorem validate_masks_service_checks :
  outcome (snd (Request.validate Scenario.objects_without_drs None))
    = Raised (Exc ValidationError "Parameter 'mode' is invalid.")
  /\ outcome (Request.check_services Scenario.objects_without_drs)
     = Raised (Exc ValidationError
                 "No services for accesing input objects defined.")
  /\ outcome (snd (Request.validate Scenario.without_tes None))
     = Raised (Exc ValidationError "Parameter 'mode' is invalid.")
  /\ outcome (Request.check_services Scenario.without_tes)
     = Raised (Exc ValidationError "No TES instance has been specified.").
Proof. repeat split. Qed.

(** ** Dictionaries *)

Lemma dict_get_set {V} (k k' : string) (v : V) (d : PyDict V) :
  dict_get k (dict_set k' v d) = if String.eqb k k' then Some v else dict_get k d.
Proof.
  induction d as [|[k0 v0] d IH]; simpl.
  - reflexivity.
  - destruct (String.eqb_spec k' k0) as [->|Hne]; simpl.
    + destruct (String.eqb k k0); reflexivity.
    + rewrite IH. destruct (String.eqb_spec k k0) as [->|Hne'].
      * destruct (String.eqb_spec k0 k') as [->|_]; [congruence|reflexivity].
      * reflexivity.
Qed.

Lemma dict_keys_set {V} (k : string) (v : V) (d : PyDict V) :
  dict_keys (dict_set k v d)
  = if decide (k ∈ dict_keys d) then dict_keys d else dict_keys d ++ [k].
Proof.
  induction d as [|[k0 v0] d IH]; simpl.
  - reflexivity.
  - destruct (String.eqb_spec k k0) as [->|Hne]; simpl.
    + rewrite decide_True by (apply elem_of_cons; now left). reflexivity.
    + rewrite IH. destruct (decide (k ∈ dict_keys d)) as [Hin|Hout].
      * rewrite decide_True by (apply elem_of_cons; now right). reflexivity.
      * rewrite decide_False; [reflexivity|].
        rewrite elem_of_cons. tauto.
Qed.

Lemma first_occurrences_NoDup (l : list string) : NoDup (first_occurrences l).
Proof.
  induction l as [|x l IH]; simpl.
  - constructor.
  - apply NoDup_cons. split.
    + rewrite list_elem_of_filter. tauto.
    + now apply NoDup_filter.
Qed.

Lemma first_occurrences_elem (l : list string) (x : string) :
  x ∈ first_occurrences l <-> x ∈ l.
Proof.
  induction l as [|y l IH]; simpl; [reflexivity|].
  rewrite !elem_of_cons, list_elem_of_filter, IH.
  destruct (decide (x = y)); tauto.
Qed.

(** ** Task-execution metadata client *)

Section TesAggregation.

Context (w : World) (rr : ResourceRequirementsDict) (timeout : PyValue).

Lemma _fetch_tes_task_info_connections (uri : string) :
  connections (trace (_fetch_tes_task_info w uri rr timeout)) = [(TES, uri)].
Proof.
  unfold _fetch_tes_task_info, external.
  destruct (tes_client_Client w uri) as [[]|[cls msg]]; simpl.
  - destruct (tes_getTaskInfo w uri timeout rr) as [r|[cls msg]]; simpl;
      [reflexivity|]. destruct cls; reflexivity.
  - destruct cls; reflexivity.
Qed.

Lemma connections_app (tr1 tr2 : list Event) :
  connections (tr1 ++ tr2) = connections tr1 ++ connections tr2.
Proof. apply flat_map_app. Qed.

Lemma tes_instances_loop_spec (tes_uris : list string) (acc : PyDict TaskInfoDict) :
  (forall uri, uri ∈ tes_uris ->
     exists task_info,
       outcome (_fetch_tes_task_info w uri rr timeout) = Returned task_info) ->
  tes_instances_loop w tes_uris rr timeout acc
  = (flat_map (fun uri => trace (_fetch_tes_task_info w uri rr timeout)) tes_uris,
     Returned (fold_left (record_answer w rr timeout) tes_uris acc)).
Proof.
  revert acc. induction tes_uris as [|uri tes_uris IH]; intros acc Hret.
  - reflexivity.
  - destruct (Hret uri) as [task_info Hti]; [apply elem_of_cons; now left|].
    cbn [tes_instances_loop fold_left flat_map].
    unfold record_answer at 2, tes_answer. rewrite Hti.
    destruct (_fetch_tes_task_info w uri rr timeout) as [tr o].
    simpl in Hti. subst o. cbn [bind trace fst].
    rewrite IH by (intros u Hu; apply Hret, elem_of_cons; now right).
    destruct (dict_truthy task_info); reflexivity.
Qed.

Lemma record_answers_keys (tes_uris : list string) (acc : PyDict TaskInfoDict) :
  dict_keys (fold_left (record_answer w rr timeout) tes_uris acc)
  = dict_keys acc
    ++ filter (fun uri => uri ∉ dict_keys acc)
         (first_occurrences
            (filter (fun uri => is_Some (tes_answer w rr timeout uri)) tes_uris)).
Proof.
  revert acc. induction tes_uris as [|uri tes_uris IH]; intros acc.
  - simpl. now rewrite app_nil_r.
  - cbn [fold_left].
    destruct (tes_answer w rr timeout uri) as [task_info|] eqn:Hans.
    + assert (Hra : record_answer w rr timeout acc uri = dict_set uri task_info acc)
        by (unfold record_answer; now rewrite Hans).
      rewrite Hra, IH.
      rewrite (filter_cons_True _ uri) by (rewrite Hans; eauto).
      cbn [first_occurrences]. rewrite dict_keys_set.
      destruct (decide (uri ∈ dict_keys acc)) as [Hin|Hout].
      * rewrite (filter_cons_False _ uri) by tauto.
        f_equal. rewrite list_filter_filter. apply list_filter_iff.
        intros x. split; [|tauto]. intros Hx; split; [exact Hx|]. congruence.
      * rewrite (filter_cons_True _ uri) by exact Hout.
        rewrite <- app_assoc. simpl. do 2 f_equal.
        rewrite list_filter_filter. apply list_filter_iff.
        intros x. rewrite elem_of_app, elem_of_cons, elem_of_nil. tauto.
    + assert (Hra : record_answer w rr timeout acc uri = acc)
        by (unfold record_answer; now rewrite Hans).
      rewrite Hra, IH.
      rewrite (filter_cons_False _ uri); [reflexivity|].
      rewrite Hans. now intros [? ?].
Qed.

Lemma record_answers_get (tes_uris : list string) (acc : PyDict TaskInfoDict)
  (uri : string) :
  dict_get uri (fold_left (record_answer w rr timeout) tes_uris acc)
  = if decide (uri ∈ tes_uris)
    then match tes_answer w rr timeout uri with
         | Some task_info => Some task_info
         | None => dict_get uri acc
         end
    else dict_get uri acc.
Proof.
  revert acc. induction tes_uris as [|u tes_uris IH]; intros acc.
  - reflexivity.
  - cbn [fold_left]. rewrite IH. unfold record_answer.
    destruct (decide (uri = u)) as [->|Hne].
    + rewrite (decide_True (P := u ∈ u :: tes_uris)) by (apply elem_of_cons; now left).
      destruct (tes_answer w rr timeout u) as [task_info|] eqn:Hans.
      * rewrite dict_get_set, String.eqb_refl. now destruct (decide _).
      * now destruct (decide _).
    + assert (Hget : dict_get uri
                (match tes_answer w rr timeout u with
                 | Some task_info => dict_set u task_info acc
                 | None => acc
                 end) = dict_get uri acc).
      { destruct (tes_answer w rr timeout u); [|reflexivity].
        rewrite dict_get_set.
        destruct (String.eqb_spec uri u); [contradiction|reflexivity]. }
      rewrite Hget.
      destruct (decide (uri ∈ tes_uris)) as [Hin|Hout].
      * rewrite decide_True by (apply elem_of_cons; now right). reflexivity.
      * rewrite decide_False; [reflexivity|].
        rewrite elem_of_cons. tauto.
Qed.

End TesAggregation.

(** The per-instance call returns whenever the client fails in the ways
    the handlers cover. *)
Lemma _fetch_tes_task_info_returns (w : World) (uri : string)
  (resource_requirements : ResourceRequirementsDict) (timeout : PyValue) :
  (forall e, tes_client_Client w uri = Raised e ->
             unreachable_class (exc_class e) = true) ->
  (forall e, tes_getTaskInfo w uri timeout resource_requirements = Raised e ->
             exc_class e = TimeoutError) ->
  exists task_info,
    outcome (_fetch_tes_task_info w uri resource_requirements timeout)
    = Returned task_info.
Proof.
  intros Hconnect Hinfo. unfold _fetch_tes_task_info, external.
  destruct (tes_client_Client w uri) as [[]|[cls msg]] eqn:Hc; simpl.
  - destruct (tes_getTaskInfo w uri timeout resource_requirements)
      as [task_info|[cls msg]] eqn:Hi; simpl.
    + now exists task_info.
    + specialize (Hinfo _ eq_refl). simpl in Hinfo. subst cls.
      now exists [].
  - specialize (Hconnect _ eq_refl). simpl in Hconnect.
    destruct cls; try discriminate; now exists [].
Qed.

Lemma filter_all {A} (P : A -> Prop) `{forall x, Decision (P x)} (l : list A) :
  (forall x, P x) -> filter P l = l.
Proof.
  intros HP. induction l as [|x l IH]; [reflexivity|].
  rewrite filter_cons_True by apply HP. now rewrite IH.
Qed.

Lemma first_occurrences_nil (l : list string) :
  first_occurrences l = [] <-> l = [].
Proof. destruct l; simpl; split; congruence. Qed.

Lemma dict_truthy_keys {V} (d : PyDict V) :
  dict_truthy d = false <-> dict_keys d = [].
Proof. destruct d; simpl; split; congruence. Qed.

(** In terms of the per-instance call: when every per-instance call
    returns, [fetch_tes_task_info]
    contacts every instance of [tes_uris] in order, whatever the outcome.
    With [check_results] set and no instance answering with a non-empty
    record it raises the [ResourceUnavailableError]; otherwise it returns
    a dictionary whose keys are the answering instances in the order of
    their first occurrence, each once, mapped to the record the instance
    answered with. *)
Lemma fetch_tes_task_info_aggregates (w : World) (tes_uris : list string)
  (resource_requirements : ResourceRequirementsDict) (check_results : bool)
  (timeout : PyValue) :
  (forall uri, uri ∈ tes_uris ->
     exists task_info,
       outcome (_fetch_tes_task_info w uri resource_requirements timeout)
       = Returned task_info) ->
  let run :=
    fetch_tes_task_info w tes_uris resource_requirements check_results timeout in
  let answering :=
    filter (fun uri => is_Some (tes_answer w resource_requirements timeout uri))
      tes_uris in
  connections (trace run) = map (pair TES) tes_uris
  /\ (check_results = true -> answering = [] ->
      outcome run
      = Raised (Exc ResourceUnavailableError
                  "None of the specified TES instances provided any task info."))
  /\ (check_results = false \/ answering <> [] ->
      exists result_dict,
        outcome run = Returned result_dict
        /\ dict_keys result_dict = first_occurrences answering
        /\ NoDup (dict_keys result_dict)
        /\ forall uri,
             dict_get uri result_dict
             = if decide (uri ∈ tes_uris)
               then tes_answer w resource_requirements timeout uri
               else None).
Proof.
  intros Hret run answering.
  set (result_dict :=
         fold_left (record_answer w resource_requirements timeout) tes_uris []).
  assert (Hkeys : dict_keys result_dict = first_occurrences answering).
  { unfold result_dict. rewrite record_answers_keys. simpl.
    apply filter_all. intros x. apply not_elem_of_nil. }
  assert (Hrun : run
    = (flat_map
         (fun uri => trace (_fetch_tes_task_info w uri resource_requirements timeout))
         tes_uris,
       if check_results && negb (dict_truthy result_dict)
       then Raised (Exc ResourceUnavailableError
                      "None of the specified TES instances provided any task info.")
       else Returned result_dict)).
  { unfold run, fetch_tes_task_info.
    rewrite (tes_instances_loop_spec w resource_requirements timeout tes_uris [] Hret).
    fold result_dict. cbn [bind].
    destruct (check_results && negb (dict_truthy result_dict));
      cbn; now rewrite app_nil_r. }
  rewrite Hrun. cbn [trace outcome fst snd].
  split; [|split].
  - clear. induction tes_uris as [|uri tes_uris IH]; [reflexivity|].
    cbn [flat_map map]. rewrite connections_app, IH.
    now rewrite (_fetch_tes_task_info_connections w resource_requirements timeout uri).
  - intros -> Hnone.
    assert (Hd : dict_truthy result_dict = false).
    { apply dict_truthy_keys. rewrite Hkeys. now apply first_occurrences_nil. }
    now rewrite Hd.
  - intros Hsome. exists result_dict.
    assert (Hcond : check_results && negb (dict_truthy result_dict) = false).
    { destruct Hsome as [->|Hne]; [reflexivity|].
      destruct (dict_truthy result_dict) eqn:Hd; [apply andb_false_r|].
      exfalso. apply Hne. apply first_occurrences_nil. rewrite <- Hkeys.
      now apply dict_truthy_keys. }
    rewrite Hcond. split; [reflexivity|]. split; [exact Hkeys|]. split.
    + rewrite Hkeys. apply first_occurrences_NoDup.
    + intros uri. unfold result_dict. rewrite record_answers_get.
      destruct (decide (uri ∈ tes_uris)); [|reflexivity].
      now destruct (tes_answer w resource_requirements timeout uri).
Qed.

(** Three TES instances of which only "T2" answers: one entry, keyed
    "T2". *)
Lemma fetch_tes_task_info_aggregates_witness :
  (forall uri, uri ∈ ["T1"; "T2"; "T3"] ->
     exists task_info,
       outcome (_fetch_tes_task_info Scenario.two_repositories uri [] (VInt 3))
       = Returned task_info)
  /\ exists result_dict,
       outcome (fetch_tes_task_info Scenario.two_repositories
                  ["T1"; "T2"; "T3"] [] true (VInt 3))
       = Returned result_dict
       /\ dict_keys result_dict = ["T2"].
Proof.
  assert (Hret : forall uri, uri ∈ ["T1"; "T2"; "T3"] ->
     exists task_info,
       outcome (_fetch_tes_task_info Scenario.two_repositories uri [] (VInt 3))
       = Returned task_info).
  { intros uri Hin.
    repeat (apply elem_of_cons in Hin as [->|Hin]);
      [eexists; reflexivity ..|].
    now apply elem_of_nil in Hin. }
  split; [exact Hret|].
  destruct (fetch_tes_task_info_aggregates Scenario.two_repositories
              ["T1"; "T2"; "T3"] [] true (VInt 3) Hret)
    as (_ & _ & Hsome).
  destruct Hsome as (result_dict & Hout & Hkeys & _).
  - right. discriminate.
  - exists result_dict. split; [exact Hout|]. rewrite Hkeys. reflexivity.
Defined.

(** ** Data-repository metadata client *)

(** With at least one instance and at least one identifier, the call on
    lines 59-63 cannot bind its arguments: the first identifier takes the
    place of [uri]. *)
Lemma fetch_drs_objects_metadata_misbinds (w : World) (drs_uri drs_id : string)
  (drs_uris drs_ids : list string) (jwt : option string) (check_results : bool)
  (timeout : PyValue) :
  fetch_drs_objects_metadata w (drs_uri :: drs_uris) (drs_id :: drs_ids) jwt
    check_results timeout
  = raise (Exc TypeError
      "_fetch_drs_objects_metadata() got multiple values for argument 'uri'").
Proof. reflexivity. Qed.

(** Without instances nothing is contacted and nothing is checked. *)
Lemma fetch_drs_objects_metadata_no_instance (w : World) (drs_ids : list string)
  (jwt : option string) (check_results : bool) (timeout : PyValue) :
  fetch_drs_objects_metadata w [] drs_ids jwt check_results timeout = ret [].
Proof. reflexivity. Qed.

(** A DRS instance that cannot be connected to yields a warning and the
    empty dictionary. *)
Lemma _fetch_drs_objects_metadata_unreachable (w : World) (uri : string)
  (ids : list string) (timeout : PyValue) (e : Exception) :
  drs_client_Client w uri = Raised e ->
  unreachable_class (exc_class e) = true ->
  exists msg,
    _fetch_drs_objects_metadata w uri ids timeout
    = ([Connect DRS uri; Log WARNING msg], Returned []).
Proof.
  intros Hc Hcls. unfold _fetch_drs_objects_metadata, external. rewrite Hc.
  destruct e as [cls m]. simpl in Hcls.
  destruct cls; try discriminate; eexists; reflexivity.
Qed.

(** A TES instance that cannot be connected to yields a warning and the
    empty dictionary. *)
Lemma _fetch_tes_task_info_unreachable (w : World) (uri : string)
  (resource_requirements : ResourceRequirementsDict) (timeout : PyValue)
  (e : Exception) :
  tes_client_Client w uri = Raised e ->
  unreachable_class (exc_class e) = true ->
  exists msg,
    _fetch_tes_task_info w uri resource_requirements timeout
    = ([Connect TES uri; Log WARNING msg], Returned []).
Proof.
  intros Hc Hcls. unfold _fetch_tes_task_info, external. rewrite Hc.
  destruct e as [cls m]. simpl in Hcls.
  destruct cls; try discriminate; eexists; reflexivity.
Qed.

Lemma dict_mem_set {V} (k k' : string) (v : V) (d : PyDict V) :
  dict_mem k (dict_set k' v d) = String.eqb k k' || dict_mem k d.
Proof.
  unfold dict_mem. rewrite dict_get_set.
  now destruct (String.eqb k k').
Qed.

Lemma merge_metadata_mem (drs_uri : string) (metadata : PyDict DrsObjectDict)
  (result_dict : PyDict (PyDict DrsObjectDict)) (drs_id : string) :
  dict_mem drs_id (merge_metadata drs_uri metadata result_dict)
  = dict_mem drs_id result_dict || dict_mem drs_id metadata.
Proof.
  unfold merge_metadata. revert result_dict.
  induction metadata as [|[k obj] metadata IH]; intros result_dict.
  - simpl. now rewrite orb_false_r.
  - cbn [fold_left]. rewrite IH, dict_mem_set.
    unfold dict_mem at 4. simpl.
    destruct (String.eqb drs_id k); simpl.
    + now rewrite !orb_true_r.
    + reflexivity.
Qed.

Lemma check_availability_raises (drs_ids : list string)
  (result_dict : PyDict (PyDict DrsObjectDict)) (drs_id : string) :
  drs_id ∈ drs_ids -> dict_mem drs_id result_dict = false ->
  exists missing,
    missing ∈ drs_ids /\ dict_mem missing result_dict = false
    /\ check_availability drs_ids result_dict
       = raise (Exc ResourceUnavailableError
                  ("Object '" ++ missing
                   ++ "' is not available at any of the specified DRS instances.")).
Proof.
  induction drs_ids as [|i drs_ids IH]; intros Hin Hmem.
  - now apply elem_of_nil in Hin.
  - simpl. destruct (dict_mem i result_dict) eqn:Hi.
    + apply elem_of_cons in Hin as [->|Hin]; [congruence|].
      destruct (IH Hin Hmem) as (missing & Hm & Hmm & Heq).
      exists missing. split; [apply elem_of_cons; now right|]. now split.
    + exists i. split; [apply elem_of_cons; now left|]. now split.
Qed.

(** The availability check belongs to the loop body: as soon as the first
    instance has been processed, an identifier it does not report raises
    the error, whatever the remaining instances hold. *)
Lemma drs_instances_loop_checks_first (fetch_at : string -> M (PyDict DrsObjectDict))
  (drs_uri : string) (drs_uris drs_ids : list string) (drs_id : string)
  (tr : list Event) (metadata : PyDict DrsObjectDict) :
  fetch_at drs_uri = (tr, Returned metadata) ->
  drs_id ∈ drs_ids -> dict_mem drs_id metadata = false ->
  exists missing,
    missing ∈ drs_ids
    /\ drs_instances_loop fetch_at (drs_uri :: drs_uris) drs_ids true []
       = (tr, Raised (Exc ResourceUnavailableError
                  ("Object '" ++ missing
                   ++ "' is not available at any of the specified DRS instances."))).
Proof.
  intros Hfetch Hin Hmem.
  set (result_dict :=
         if dict_truthy metadata then merge_metadata drs_uri metadata []
         else []).
  assert (Hrd : dict_mem drs_id result_dict = false).
  { unfold result_dict. destruct (dict_truthy metadata); [|reflexivity].
    rewrite merge_metadata_mem. now rewrite Hmem. }
  destruct (check_availability_raises drs_ids result_dict drs_id Hin Hrd)
    as (missing & Hm & _ & Heq).
  exists missing. split; [exact Hm|].
  cbn [drs_instances_loop]. rewrite Hfetch. cbn [bind].
  fold result_dict. rewrite Heq. cbn. now rewrite app_nil_r.
Qed.

(** The merge of lines 65-70 on its own, for the two repositories of the
    scenario: with the per-instance metadata passed as the docstrings
    describe and no availability check, "o1" gets both instances, "o2"
    only "B", and "o3" no entry. *)
Lemma drs_instances_loop_merges :
  outcome
    (drs_instances_loop
       (fun drs_uri =>
          _fetch_drs_objects_metadata Scenario.two_repositories drs_uri
            ["o1"; "o2"; "o3"] (VInt 3))
       ["A"; "B"] ["o1"; "o2"; "o3"] false [])
  = Returned
      [("o1", [("A", Scenario.object_record "o1");
               ("B", Scenario.object_record "o1")]);
       ("o2", [("B", Scenario.object_record "o2")])].
Proof. reflexivity. Qed.

(** C3 (the code departs from it): "o1" is served by the later instance
    "B" only, and the call with [check_results] set raises all the same:
    a [TypeError] from the call on lines 59-63, before any instance is
    contacted.  The loop on its own, given the metadata of each instance,
    raises the [ResourceUnavailableError] for "o1" right after "A",
    without contacting "B".  And with no instance at all, an identifier
    that no instance reports raises nothing. *)
Theorem fetch_drs_objects_metadata_fails_before_later_instance :
  drs_getObject Scenario.later_only "B" "o1"
    = Returned (Scenario.object_record "o1")
  /\ fetch_drs_objects_metadata Scenario.later_only ["A"; "B"] ["o1"] None
       true (VInt 3)
     = ([], Raised (Exc TypeError
          "_fetch_drs_objects_metadata() got multiple values for argument 'uri'"))
  /\ drs_instances_loop
       (fun drs_uri =>
          _fetch_drs_objects_metadata Scenario.later_only drs_uri ["o1"] (VInt 3))
       ["A"; "B"] ["o1"] true []
     = ([Connect DRS "A"; GetObject "A" "o1";
         Log DEBUG [Lit "File '"; Fmt (VStr "o1");
                    Lit "' is not available on DRS '"; Fmt (VStr "A");
                    Lit "'."]],
        Raised (Exc ResourceUnavailableError
          "Object 'o1' is not available at any of the specified DRS instances."))
  /\ fetch_drs_objects_metadata Scenario.later_only [] ["o1"] None true (VInt 3)
     = ([], Returned []).
Proof. repeat split. Qed.

(** C4 (the code departs from it): with "A" reporting "o1" and "B"
    reporting "o1" and "o2", the call for the two identifiers returns no
    mapping: it raises the [TypeError] of the call on lines 59-63, with or
    without the availability check; and the loop on its own, with the
    check, raises the [ResourceUnavailableError] for "o2" after "A". *)
Theorem fetch_drs_objects_metadata_returns_no_mapping :
  (forall check_results : bool,
     fetch_drs_objects_metadata Scenario.two_repositories ["A"; "B"]
       ["o1"; "o2"] None check_results (VInt 3)
     = ([], Raised (Exc TypeError
          "_fetch_drs_objects_metadata() got multiple values for argument 'uri'")))
  /\ outcome
       (drs_instances_loop
          (fun drs_uri =>
             _fetch_drs_objects_metadata Scenario.two_repositories drs_uri
               ["o1"; "o2"] (VInt 3))
          ["A"; "B"] ["o1"; "o2"] true [])
     = Raised (Exc ResourceUnavailableError
         "Object 'o2' is not available at any of the specified DRS instances.").
Proof. split; [intros []|]; reflexivity. Qed.

(** C8 (the code departs from it): the unreachable instance "A" on its
    own yields a warning and the empty dictionary, for DRS and for TES,
    and the TES call over "A" and "B" returns the record of "B".  The DRS
    call over "A" and "B" for "o1", which "B" reports, returns nothing of
    "B": it raises the [TypeError] of the call on lines 59-63; and the
    loop on its own raises the [ResourceUnavailableError] for "o1" after
    "A", without contacting "B". *)
Theorem unreachable_first_instance_hides_later_data :
  _fetch_drs_objects_metadata Scenario.first_unreachable "A" ["o1"] (VInt 3)
    = ([Connect DRS "A";
        Log WARNING [Lit "DRS unavailable: the provided URI '"; Fmt (VStr "A");
                     Lit "' could not be resolved."]],
       Returned [])
  /\ _fetch_tes_task_info Scenario.first_unreachable "A" [] (VInt 3)
     = ([Connect TES "A";
         Log WARNING [Lit "TES unavailable: the provided URI '"; Fmt (VStr "A");
                      Lit "' could not be resolved."]],
        Returned [])
  /\ outcome (fetch_tes_task_info Scenario.first_unreachable ["A"; "B"] []
                true (VInt 3))
     = Returned [("B", Scenario.task_info_record)]
  /\ drs_getObject Scenario.first_unreachable "B" "o1"
     = Returned (Scenario.object_record "o1")
  /\ fetch_drs_objects_metadata Scenario.first_unreachable ["A"; "B"] ["o1"]
       None true (VInt 3)
     = ([], Raised (Exc TypeError
          "_fetch_drs_objects_metadata() got multiple values for argument 'uri'"))
  /\ drs_instances_loop
       (fun drs_uri =>
          _fetch_drs_objects_metadata Scenario.first_unreachable drs_uri
            ["o1"] (VInt 3))
       ["A"; "B"] ["o1"] true []
     = ([Connect DRS "A";
         Log WARNING [Lit "DRS unavailable: the provided URI '"; Fmt (VStr "A");
                      Lit "' could not be resolved."]],
        Raised (Exc ResourceUnavailableError
          "Object 'o1' is not available at any of the specified DRS instances.")).
Proof. repeat split. Qed.

(** * Further properties *)

Import ModelObjects.

(** ** Request defaults and validation *)

Lemma insert_item_elem (it x : string * PyValue) (l : list (string * PyValue)) :
  x ∈ Request.insert_item it l <-> x = it \/ x ∈ l.
Proof.
  induction l as [|it' l IH]; simpl.
  - rewrite list_elem_of_singleton, elem_of_nil. tauto.
  - destruct (String.leb (fst it) (fst it')).
    + now rewrite elem_of_cons.
    + rewrite !elem_of_cons, IH. tauto.
Qed.

Lemma insert_item_length (it : string * PyValue) (l : list (string * PyValue)) :
  length (Request.insert_item it l) = S (length l).
Proof.
  induction l as [|it' l IH]; simpl; [reflexivity|].
  destruct (String.leb (fst it) (fst it')); simpl; now rewrite ?IH.
Qed.

Lemma sorted_items_elem (x : string * PyValue) (kwargs : list (string * PyValue)) :
  x ∈ Request.sorted_items kwargs <-> x ∈ kwargs.
Proof.
  unfold Request.sorted_items.
  induction kwargs as [|it kwargs IH]; simpl; [reflexivity|].
  now rewrite insert_item_elem, elem_of_cons, IH.
Qed.

Lemma sorted_items_length (kwargs : list (string * PyValue)) :
  length (Request.sorted_items kwargs) = length kwargs.
Proof.
  unfold Request.sorted_items.
  induction kwargs as [|it kwargs IH]; simpl; [reflexivity|].
  now rewrite insert_item_length, IH.
Qed.

Lemma set_defaults_loop_trace (defaults : Request.Defaults)
  (items : list (string * PyValue)) (return_dict : PyDict PyValue) :
  trace (Request.set_defaults_loop defaults items return_dict)
  = map (defaults_record defaults) items.
Proof.
  revert return_dict.
  induction items as [|[name value] items IH]; intros return_dict.
  - reflexivity.
  - assert (step : forall (ev : Event) (v : PyValue),
      trace (x <- (([ev], Returned v) : M PyValue) ;;
             Request.set_defaults_loop defaults items
               (dict_set name x return_dict))
      = ev :: map (defaults_record defaults) items).
    { intros ev v. simpl.
      specialize (IH (dict_set name v return_dict)).
      destruct (Request.set_defaults_loop defaults items _) as [tr' o].
      simpl in *. now rewrite IH. }
    cbn [map]. unfold defaults_record at 1. cbn [fst snd].
    simpl. destruct value; try apply step.
    destruct (defaults !! name); apply step.
Qed.

(** X1: [set_defaults] never raises, evaluates to [None] and leaves the
    instance as it was; it logs one record per keyword argument, and the
    warning that no default is available for a name exactly when that
    keyword is undefined and [defaults] has no such key. *)
Theorem set_defaults_logs_one_record_each (self : Request.t)
  (defaults : Request.Defaults) (kwargs : list (string * PyValue)) :
  let run := Request.set_defaults self defaults kwargs in
  fst run = self
  /\ outcome (snd run) = Returned VNone
  /\ length (trace (snd run)) = length kwargs
  /\ forall name : string,
       Log WARNING [Lit "No default value available for object '";
                    Fmt (VStr name); Lit "'."] ∈ trace (snd run)
       <-> (name, VNone) ∈ kwargs /\ defaults !! name = None.
Proof.
  intros run.
  destruct (set_defaults_inert self defaults kwargs) as [Hself Hout].
  assert (Htr : trace (snd run)
                = map (defaults_record defaults) (Request.sorted_items kwargs)).
  { unfold run, Request.set_defaults. cbn [snd].
    pose proof (set_defaults_loop_trace defaults (Request.sorted_items kwargs) [])
      as Hloop.
    destruct (Request.set_defaults_loop defaults _ _) as [tr [d|e]];
      simpl in *; now rewrite ?app_nil_r. }
  split; [exact Hself|]. split; [exact Hout|]. split.
  - now rewrite Htr, length_map, sorted_items_length.
  - intros name. rewrite Htr, list_elem_of_fmap. split.
    + intros ([n v] & Hev & Hin). rewrite sorted_items_elem in Hin.
      unfold defaults_record in Hev. cbn [fst snd] in Hev.
      destruct v; try discriminate.
      destruct (defaults !! n) eqn:Hd; try discriminate.
      injection Hev as ->. now split.
    + intros [Hin Hd]. exists (name, VNone). split.
      * unfold defaults_record. cbn [fst snd]. now rewrite Hd.
      * now apply sorted_items_elem.
Qed.

(** X2: [validate] accepts no request.  Whatever the fields and the
    defaults, the call raises the run mode [ValidationError], leaves the
    instance as it was, and has logged, before the error, one record for
    each of the five fields (in the order drs_ids, drs_uris, mode,
    resource_requirements, tes_uris) when defaults were passed. *)
Theorem validate_never_accepts (self : Request.t)
  (defaults : option Request.Defaults) :
  let run := Request.validate self defaults in
  fst run = self
  /\ outcome (snd run)
     = Raised (Exc ValidationError "Parameter 'mode' is invalid.")
  /\ trace (snd run)
     = match defaults with
       | Some defaults => map (defaults_record defaults) (validate_kwargs self)
       | None => []
       end
       ++ [Log (SeverityOf ValidationError) [Lit "Parameter 'mode' is invalid."]].
Proof.
  intros run. unfold run, Request.validate.
  destruct defaults as [defaults|]; [|repeat split].
  destruct (set_defaults_inert self defaults (validate_kwargs self)) as [Hs Ho].
  pose proof (set_defaults_loop_trace defaults
                (Request.sorted_items (validate_kwargs self)) []) as Htr.
  change (Request.sorted_items (validate_kwargs self))
    with (validate_kwargs self) in Htr.
  unfold Request.set_defaults, validate_kwargs in *. cbn [fst snd] in *.
  change (Request.sorted_items
            [("drs_ids", Request.drs_ids self);
             ("drs_uris", Request.drs_uris self);
             ("mode", Request.mode self);
             ("resource_requirements", Request.resource_requirements self);
             ("tes_uris", Request.tes_uris self)])
    with [("drs_ids", Request.drs_ids self);
          ("drs_uris", Request.drs_uris self);
          ("mode", Request.mode self);
          ("resource_requirements", Request.resource_requirements self);
          ("tes_uris", Request.tes_uris self)] in *.
  destruct (Request.set_defaults_loop defaults _ []) as [tr [d|e]];
    simpl in *; [|discriminate].
  subst tr. rewrite app_nil_r. repeat split.
Qed.

(** ** Mode normalization, further *)

Lemma Mode_by_name_random (s : string) :
  Mode_by_name s = Some random -> s = "random".
Proof.
  unfold Mode_by_name.
  destruct (String.eqb_spec s "random"); [easy|].
  destruct (String.eqb s "cost"); [discriminate|].
  destruct (String.eqb s "time"); discriminate.
Qed.

Lemma Mode_by_value_random (z : Z) :
  Mode_by_value z = Some random -> z = (-1)%Z.
Proof.
  unfold Mode_by_value.
  destruct (Z.eqb_spec z (-1)); [easy|].
  destruct (z =? 0)%Z; [discriminate|].
  destruct (z =? 1)%Z; discriminate.
Qed.

(** A rejection yields no float, whether the warning is logged or its
    rendering fails. *)
Lemma warn_invalid_mode_rejects (v : PyValue) (f : float) :
  outcome (Request.warn_invalid_mode v ;; ret None) <> Returned (Some f).
Proof.
  unfold Request.warn_invalid_mode.
  destruct (Request.format_fails v); discriminate.
Qed.

(** X3: [sanitize_mode] logs at most one record and raises in one case
    only.  It either accepts the value silently; or rejects a string,
    integer or float with one warning that quotes the value; or, for an
    integer that is no mode value and has more than 4300 digits, raises
    the [ValueError] of rendering that warning, with nothing logged; or
    rejects silently a value that is none of [Mode], [str], [int],
    [float] ([None] included). *)
Theorem sanitize_mode_outcomes (v : PyValue) :
  (exists f, Request.sanitize_mode v = ret (Some f))
  \/ (Request.sanitize_mode v
      = ([Log WARNING [Lit "Run mode undefined. Invalid mode value passed: ";
                       Fmt v]],
         Returned None)
      /\ as_Mode v = None
      /\ (as_str v <> None \/ as_int v <> None \/ as_float v <> None))
  \/ (exists z,
        v = VInt z
        /\ (10 ^ Request.int_max_str_digits <= Z.abs z)%Z
        /\ Mode_by_value z = None
        /\ Request.sanitize_mode v
           = ([], Raised (Exc (OtherException "ValueError")
                   "Exceeds the limit (4300 digits) for integer string conversion; use sys.set_int_max_str_digits() to increase the limit")))
  \/ (Request.sanitize_mode v = ret None
      /\ as_Mode v = None /\ as_str v = None /\ as_int v = None
      /\ as_float v = None).
Proof.
  destruct v as [|b|z|f|s|l|l|m|t|cls];
    try (right; right; right; repeat split; fail).
  - left. destruct b; eexists; reflexivity.
  - unfold Request.sanitize_mode, Request.warn_invalid_mode.
    cbn [as_Mode as_str as_int Request.format_fails].
    destruct (Mode_by_value z) eqn:Hm.
    + left. eexists; reflexivity.
    + destruct (Request.str_of_int_fails z) eqn:Hfail.
      * right; right; left. exists z. split; [reflexivity|].
        split; [now apply Z.leb_le|]. split; [exact Hm|reflexivity].
      * right; left. split; [reflexivity|]. split; [reflexivity|].
        right; left. discriminate.
  - unfold Request.sanitize_mode, Request.warn_invalid_mode.
    cbn [as_Mode as_str as_int as_float Request.format_fails].
    destruct ((f <? 0) || (1 <? f))%float.
    + right; left. split; [reflexivity|]. split; [reflexivity|].
      right; right. discriminate.
    + left. eexists; reflexivity.
  - unfold Request.sanitize_mode, Request.warn_invalid_mode.
    cbn [as_Mode as_str Request.format_fails].
    destruct (Mode_by_name s).
    + left. eexists; reflexivity.
    + right; left. split; [reflexivity|]. split; [reflexivity|].
      left. discriminate.
  - left. eexists; reflexivity.
Qed.

(** X4: a normalized mode is a float of the unit interval or NaN, except
    for the value -1.0, which only the three spellings of [random]
    produce. *)
Theorem sanitize_mode_range (v : PyValue) (f : float) :
  outcome (Request.sanitize_mode v) = Returned (Some f) ->
  ((0 <=? f) && (f <=? 1))%float = true
  \/ is_nan f = true
  \/ (f = (-1)%float
      /\ (v = VMode random \/ v = VStr "random" \/ v = VInt (-1))).
Proof.
  destruct v as [|b|z|f0|s|l|l|m|t|cls]; try discriminate.
  - destruct b; intros [= <-]; left; reflexivity.
  - unfold Request.sanitize_mode. cbn [as_Mode as_str as_int].
    destruct (Mode_by_value z) as [m|] eqn:Hm;
      [|intros H; exfalso; exact (warn_invalid_mode_rejects _ _ H)].
    destruct m; intros [= <-]; try (left; reflexivity).
    right; right. split; [reflexivity|].
    right; right. now rewrite (Mode_by_value_random z Hm).
  - unfold Request.sanitize_mode. cbn [as_Mode as_str as_int as_float].
    destruct ((f0 <? 0) || (1 <? f0))%float eqn:Hout;
      [intros H; exfalso; exact (warn_invalid_mode_rejects _ _ H)|].
    intros [= <-].
    destruct (float_cover f0) as [Hin|[Hin|Hnan]]; [now left|congruence|].
    right; now left.
  - unfold Request.sanitize_mode. cbn [as_Mode as_str].
    destruct (Mode_by_name s) as [m|] eqn:Hm;
      [|intros H; exfalso; exact (warn_invalid_mode_rejects _ _ H)].
    destruct m; intros [= <-]; try (left; reflexivity).
    right; right. split; [reflexivity|].
    right; left. now rewrite (Mode_by_name_random s Hm).
  - destruct m; intros [= <-]; try (left; reflexivity).
    right; right. split; [reflexivity|]. now left.
Qed.

Lemma sanitize_mode_range_witness :
  outcome (Request.sanitize_mode (VStr "random")) = Returned (Some (-1)%float)
  /\ (((0 <=? -1) && (-1 <=? 1))%float = true
      \/ is_nan (-1) = true
      \/ ((-1)%float = (-1)%float
          /\ (VStr "random" = VMode random \/ VStr "random" = VStr "random"
              \/ VStr "random" = VInt (-1)))).
Proof.
  split; [reflexivity|].
  apply (sanitize_mode_range (VStr "random") (-1)%float). reflexivity.
Defined.

(** X5: normalizing a normalized mode gives it back, except for -1.0:
    the float that [random] normalizes to is itself rejected, with a
    warning. *)
Theorem sanitize_mode_again (v : PyValue) (f : float) :
  outcome (Request.sanitize_mode v) = Returned (Some f) ->
  Request.sanitize_mode (VFloat f)
  = if (f =? -1)%float
    then ([Log WARNING [Lit "Run mode undefined. Invalid mode value passed: ";
                        Fmt (VFloat f)]],
          Returned None)
    else ret (Some f).
Proof.
  intros Hv.
  assert (Hcases : ((f <? 0) || (1 <? f))%float = false \/ f = (-1)%float).
  { destruct v as [|b|z|f0|s|l|l|m|t|cls]; try discriminate.
    - destruct b; injection Hv as <-; left; reflexivity.
    - unfold Request.sanitize_mode in Hv. cbn [as_Mode as_str as_int] in Hv.
      destruct (Mode_by_value z) as [[]|];
        try (exfalso; exact (warn_invalid_mode_rejects _ _ Hv));
        injection Hv as <-; [right|left|left]; reflexivity.
    - unfold Request.sanitize_mode in Hv.
      cbn [as_Mode as_str as_int as_float] in Hv.
      destruct ((f0 <? 0) || (1 <? f0))%float eqn:Hout;
        [exfalso; exact (warn_invalid_mode_rejects _ _ Hv)|].
      injection Hv as <-. now left.
    - unfold Request.sanitize_mode in Hv. cbn [as_Mode as_str] in Hv.
      destruct (Mode_by_name s) as [[]|];
        try (exfalso; exact (warn_invalid_mode_rejects _ _ Hv));
        injection Hv as <-; [right|left|left]; reflexivity.
    - destruct m; injection Hv as <-; [right|left|left]; reflexivity. }
  destruct Hcases as [Hin| ->]; [|reflexivity].
  unfold Request.sanitize_mode, Request.warn_invalid_mode.
  cbn [as_Mode as_str as_int as_float Request.format_fails].
  rewrite Hin.
  destruct (f =? -1)%float eqn:Heq; [|reflexivity].
  exfalso. apply orb_false_elim in Hin as [Hlt _].
  rewrite FloatAxioms.eqb_spec in Heq. rewrite FloatAxioms.ltb_spec in Hlt.
  assert (Hm1 : Prim2SF (-1) = S754_finite true 4503599627370496 (-52))
    by (vm_compute; reflexivity).
  assert (Hz : Prim2SF 0 = S754_zero false) by (vm_compute; reflexivity).
  rewrite Hm1 in Heq. rewrite Hz in Hlt.
  destruct (Prim2SF f) as [sf|sf| |sf mf ef].
  - destruct sf; lazy in Heq; discriminate.
  - destruct sf; lazy in Heq; discriminate.
  - lazy in Heq; discriminate.
  - destruct sf.
    + lazy in Hlt. discriminate.
    + unfold SFeqb, SFcompare in Heq. discriminate.
Qed.

Lemma sanitize_mode_again_witness :
  outcome (Request.sanitize_mode (VStr "time")) = Returned (Some 1%float)
  /\ Request.sanitize_mode (VFloat 1) = ret (Some 1%float).
Proof.
  split; [reflexivity|].
  apply (sanitize_mode_again (VStr "time") 1%float). reflexivity.
Defined.

(** X6: the three spellings of a mode agree.  For every member of
    [Mode], its name and its value are found again by [Mode[name]] and
    [Mode(value)], and [sanitize_mode] gives the member, its name and its
    value the same float, without a warning. *)
Theorem sanitize_mode_spellings_agree (m : Mode) :
  Mode_by_name (Mode_name m) = Some m
  /\ Mode_by_value (Mode_value m) = Some m
  /\ Request.sanitize_mode (VStr (Mode_name m)) = Request.sanitize_mode (VMode m)
  /\ Request.sanitize_mode (VInt (Mode_value m)) = Request.sanitize_mode (VMode m)
  /\ exists f, Request.sanitize_mode (VMode m) = ret (Some f).
Proof.
  destruct m; repeat split; eexists; reflexivity.
Qed.

(** ** Filling dictionaries *)

Section Collect.

Context {V : Type} (answer : string -> option V).

Lemma collect_keys (ks : list string) (acc : PyDict V) :
  dict_keys (fold_left (collect answer) ks acc)
  = dict_keys acc
    ++ filter (fun k => k ∉ dict_keys acc)
         (first_occurrences (filter (fun k => is_Some (answer k)) ks)).
Proof.
  revert acc. induction ks as [|k ks IH]; intros acc.
  - simpl. now rewrite app_nil_r.
  - cbn [fold_left].
    destruct (answer k) as [v|] eqn:Hans.
    + assert (Hc : collect answer acc k = dict_set k v acc)
        by (unfold collect; now rewrite Hans).
      rewrite Hc, IH.
      rewrite (filter_cons_True _ k) by (rewrite Hans; eauto).
      cbn [first_occurrences]. rewrite dict_keys_set.
      destruct (decide (k ∈ dict_keys acc)) as [Hin|Hout].
      * rewrite (filter_cons_False _ k) by tauto.
        f_equal. rewrite list_filter_filter. apply list_filter_iff.
        intros x. split; [|tauto]. intros Hx; split; [exact Hx|]. congruence.
      * rewrite (filter_cons_True _ k) by exact Hout.
        rewrite <- app_assoc. simpl. do 2 f_equal.
        rewrite list_filter_filter. apply list_filter_iff.
        intros x. rewrite elem_of_app, elem_of_cons, elem_of_nil. tauto.
    + assert (Hc : collect answer acc k = acc)
        by (unfold collect; now rewrite Hans).
      rewrite Hc, IH.
      rewrite (filter_cons_False _ k); [reflexivity|].
      rewrite Hans. now intros [? ?].
Qed.

Lemma collect_get (ks : list string) (acc : PyDict V) (k : string) :
  dict_get k (fold_left (collect answer) ks acc)
  = if decide (k ∈ ks)
    then match answer k with
         | Some v => Some v
         | None => dict_get k acc
         end
    else dict_get k acc.
Proof.
  revert acc. induction ks as [|k0 ks IH]; intros acc.
  - reflexivity.
  - cbn [fold_left]. rewrite IH. unfold collect.
    destruct (decide (k = k0)) as [->|Hne].
    + rewrite (decide_True (P := k0 ∈ k0 :: ks)) by (apply elem_of_cons; now left).
      destruct (answer k0) as [v|] eqn:Hans.
      * rewrite dict_get_set, String.eqb_refl. now destruct (decide _).
      * now destruct (decide _).
    + assert (Hget : dict_get k
                (match answer k0 with
                 | Some v => dict_set k0 v acc
                 | None => acc
                 end) = dict_get k acc).
      { destruct (answer k0); [|reflexivity].
        rewrite dict_get_set.
        destruct (String.eqb_spec k k0); [contradiction|reflexivity]. }
      rewrite Hget.
      destruct (decide (k ∈ ks)) as [Hin|Hout].
      * rewrite decide_True by (apply elem_of_cons; now right). reflexivity.
      * rewrite decide_False; [reflexivity|].
        rewrite elem_of_cons. tauto.
Qed.

End Collect.

(** ** One DRS instance *)

Lemma requests_app (tr1 tr2 : list Event) :
  requests (tr1 ++ tr2) = requests tr1 ++ requests tr2.
Proof. apply flat_map_app. Qed.

(** One pass of the loop over [ids] whose request ends in a way the loop
    handles. *)
Lemma drs_objects_loop_step (w : World) (uri drs_id : string)
  (ids : list string) (acc : PyDict DrsObjectDict) :
  (forall e, drs_getObject w uri drs_id = Raised e ->
             skipped_class (exc_class e) = true) ->
  exists tr,
    requests tr = [(uri, drs_id)]
    /\ drs_objects_loop w uri (drs_id :: ids) acc
       = (tr ++ trace (drs_objects_loop w uri ids
                          (collect (drs_report w uri) acc drs_id)),
          outcome (drs_objects_loop w uri ids
                     (collect (drs_report w uri) acc drs_id))).
Proof.
  intros Hhandled. unfold collect, drs_report.
  cbn [drs_objects_loop]. unfold external.
  destruct (drs_getObject w uri drs_id) as [obj|[cls msg]] eqn:Hget.
  - exists [GetObject uri drs_id]. split; [reflexivity|].
    simpl. now destruct (drs_objects_loop w uri ids _).
  - specialize (Hhandled _ eq_refl). simpl in Hhandled.
    destruct cls; try discriminate; eexists [_; _]; (split; [|
      simpl; destruct (drs_objects_loop w uri ids acc); reflexivity]);
      reflexivity.
Qed.

Lemma drs_objects_loop_spec (w : World) (uri : string) (ids : list string)
  (acc : PyDict DrsObjectDict) :
  (forall drs_id e, drs_id ∈ ids -> drs_getObject w uri drs_id = Raised e ->
                    skipped_class (exc_class e) = true) ->
  outcome (drs_objects_loop w uri ids acc)
    = Returned (fold_left (collect (drs_report w uri)) ids acc)
  /\ requests (trace (drs_objects_loop w uri ids acc)) = map (pair uri) ids.
Proof.
  revert acc. induction ids as [|drs_id ids IH]; intros acc Hhandled.
  - split; reflexivity.
  - destruct (drs_objects_loop_step w uri drs_id ids acc) as (tr & Hreq & Heq).
    { intros e. apply Hhandled. apply elem_of_cons; now left. }
    rewrite Heq. cbn [outcome trace fst snd fold_left map].
    destruct (IH (collect (drs_report w uri) acc drs_id)) as [Ho Ht].
    { intros i e Hi. apply Hhandled. apply elem_of_cons; now right. }
    split; [exact Ho|]. now rewrite requests_app, Hreq, Ht.
Qed.

(** X7: when the connection is established and every request for an
    object ends in a record, a not-found or a timeout,
    [_fetch_drs_objects_metadata] requests every identifier in order and
    returns a dictionary holding exactly the identifiers the instance
    reported, in the order of their first occurrence, each with the
    record reported for it: an object that was not found or timed out is
    left out and does not end the batch. *)
Theorem _fetch_drs_objects_metadata_reports (w : World) (uri : string)
  (ids : list string) (timeout : PyValue) :
  drs_client_Client w uri = Returned tt ->
  (forall drs_id e, drs_id ∈ ids -> drs_getObject w uri drs_id = Raised e ->
                    skipped_class (exc_class e) = true) ->
  exists objects_metadata,
    outcome (_fetch_drs_objects_metadata w uri ids timeout)
      = Returned objects_metadata
    /\ requests (trace (_fetch_drs_objects_metadata w uri ids timeout))
       = map (pair uri) ids
    /\ dict_keys objects_metadata
       = first_occurrences
           (filter (fun drs_id => is_Some (drs_report w uri drs_id)) ids)
    /\ forall drs_id,
         dict_get drs_id objects_metadata
         = if decide (drs_id ∈ ids) then drs_report w uri drs_id else None.
Proof.
  intros Hconnect Hhandled.
  destruct (drs_objects_loop_spec w uri ids [] Hhandled) as [Ho Ht].
  exists (fold_left (collect (drs_report w uri)) ids []).
  unfold _fetch_drs_objects_metadata, external. rewrite Hconnect.
  cbn [bind try_except ret app].
  destruct (drs_objects_loop w uri ids []) as [tr o]. simpl in Ho, Ht.
  cbn [outcome trace fst snd app]. subst o.
  split; [reflexivity|]. split; [exact Ht|]. split.
  - rewrite collect_keys. simpl. apply filter_all. intros x. apply not_elem_of_nil.
  - intros drs_id. rewrite collect_get.
    destruct (decide (drs_id ∈ ids)); [|reflexivity].
    now destruct (drs_report w uri drs_id).
Qed.

Lemma _fetch_drs_objects_metadata_reports_witness :
  drs_client_Client Scenario2.flaky_repository "A" = Returned tt
  /\ exists objects_metadata,
       outcome (_fetch_drs_objects_metadata Scenario2.flaky_repository "A"
                  ["o2"; "o3"; "o1"] (VInt 3))
       = Returned objects_metadata
       /\ dict_keys objects_metadata = ["o1"].
Proof.
  split; [reflexivity|].
  destruct (_fetch_drs_objects_metadata_reports Scenario2.flaky_repository "A"
              ["o2"; "o3"; "o1"] (VInt 3) eq_refl)
    as (objects_metadata & Ho & _ & Hk & _).
  - intros drs_id e Hin.
    repeat (apply elem_of_cons in Hin as [->|Hin]);
      [intros [= <-]; reflexivity ..|now apply elem_of_nil in Hin];
      discriminate.
  - exists objects_metadata. split; [exact Ho|]. rewrite Hk. reflexivity.
Defined.

(** X8: a failure of a request for an object that is neither a not-found
    nor a timeout (a broken connection, say) is not caught: it leaves
    [_fetch_drs_objects_metadata] as raised, the records fetched so far
    are lost and the identifiers after it are never requested. *)
Theorem _fetch_drs_objects_metadata_propagates (w : World) (uri : string)
  (before after : list string) (drs_id : string) (timeout : PyValue)
  (e : Exception) :
  drs_client_Client w uri = Returned tt ->
  (forall i e', i ∈ before -> drs_getObject w uri i = Raised e' ->
                skipped_class (exc_class e') = true) ->
  drs_getObject w uri drs_id = Raised e ->
  skipped_class (exc_class e) = false ->
  let run :=
    _fetch_drs_objects_metadata w uri (before ++ drs_id :: after) timeout in
  outcome run = Raised e
  /\ requests (trace run) = map (pair uri) (before ++ [drs_id]).
Proof.
  intros Hconnect Hbefore Hget Hclass run.
  assert (Hloop : forall acc,
    outcome (drs_objects_loop w uri (before ++ drs_id :: after) acc) = Raised e
    /\ requests (trace (drs_objects_loop w uri (before ++ drs_id :: after) acc))
       = map (pair uri) (before ++ [drs_id])).
  { clear run. induction before as [|i before IH]; intros acc.
    - cbn [app drs_objects_loop map]. unfold external. rewrite Hget.
      destruct e as [cls msg]. simpl in Hclass.
      destruct cls; try discriminate; split; reflexivity.
    - destruct (drs_objects_loop_step w uri i (before ++ drs_id :: after) acc)
        as (tr & Hreq & Heq).
      { intros e'. apply Hbefore. apply elem_of_cons; now left. }
      cbn [app]. rewrite Heq. cbn [outcome trace fst snd map].
      destruct (IH (fun i' e' Hi => Hbefore i' e' (proj2 (elem_of_cons _ _ _) (or_intror Hi)))
                   (collect (drs_report w uri) acc i)) as [Ho Ht].
      split; [exact Ho|]. now rewrite requests_app, Hreq, Ht. }
  destruct (Hloop []) as [Ho Ht].
  unfold run, _fetch_drs_objects_metadata, external. rewrite Hconnect.
  cbn [bind try_except ret app].
  destruct (drs_objects_loop w uri (before ++ drs_id :: after) []) as [tr o].
  simpl in Ho, Ht. cbn [outcome trace fst snd app]. now subst o.
Qed.

Lemma _fetch_drs_objects_metadata_propagates_witness :
  outcome (_fetch_drs_objects_metadata Scenario2.flaky_repository "A"
             (["o1"; "o2"] ++ "o4" :: ["o1"]) (VInt 3))
  = Raised (Exc ConnectionError "reset")
  /\ requests (trace (_fetch_drs_objects_metadata Scenario2.flaky_repository "A"
                        (["o1"; "o2"] ++ "o4" :: ["o1"]) (VInt 3)))
     = [("A", "o1"); ("A", "o2"); ("A", "o4")].
Proof.
  apply (_fetch_drs_objects_metadata_propagates Scenario2.flaky_repository "A"
           ["o1"; "o2"] ["o1"] "o4" (VInt 3) (Exc ConnectionError "reset")).
  - reflexivity.
  - intros i e' Hin.
    repeat (apply elem_of_cons in Hin as [->|Hin]);
      [intros [= <-]; reflexivity ..|now apply elem_of_nil in Hin];
      discriminate.
  - reflexivity.
  - reflexivity.
Defined.

(** ** One TES instance *)

(** X9: an [HTTPError] raised while connecting is treated differently by
    the two clients: [_fetch_drs_objects_metadata] turns it into a
    warning and the empty dictionary, [_fetch_tes_task_info] does not
    catch it, and it ends [fetch_tes_task_info] as well, with or without
    [check_results]. *)
Theorem connect_HTTPError_drs_caught_tes_raised (w : World) (uri msg : string)
  (ids : list string) (resource_requirements : ResourceRequirementsDict)
  (check_results : bool) (timeout : PyValue) :
  drs_client_Client w uri = Raised (Exc HTTPError msg) ->
  tes_client_Client w uri = Raised (Exc HTTPError msg) ->
  outcome (_fetch_drs_objects_metadata w uri ids timeout) = Returned []
  /\ _fetch_tes_task_info w uri resource_requirements timeout
     = ([Connect TES uri], Raised (Exc HTTPError msg))
  /\ fetch_tes_task_info w [uri] resource_requirements check_results timeout
     = ([Connect TES uri], Raised (Exc HTTPError msg)).
Proof.
  intros Hdrs Htes.
  unfold fetch_tes_task_info, tes_instances_loop.
  unfold _fetch_drs_objects_metadata, _fetch_tes_task_info, external.
  rewrite Hdrs, Htes. repeat split.
Qed.

Lemma connect_HTTPError_drs_caught_tes_raised_witness :
  outcome (_fetch_drs_objects_metadata Scenario2.flaky_repository "H" ["o1"]
             (VInt 3)) = Returned []
  /\ _fetch_tes_task_info Scenario2.flaky_repository "H" [] (VInt 3)
     = ([Connect TES "H"], Raised (Exc HTTPError "500"))
  /\ fetch_tes_task_info Scenario2.flaky_repository ["H"] [] false (VInt 3)
     = ([Connect TES "H"], Raised (Exc HTTPError "500")).
Proof.
  apply (connect_HTTPError_drs_caught_tes_raised Scenario2.flaky_repository
           "H" "500" ["o1"] [] false (VInt 3)); reflexivity.
Defined.

(** X10: what leaves [_fetch_tes_task_info].  An exception that it raises
    is the client's own: either the connection failed in a way outside
    the five handled classes, or the connection was established and the
    task info request failed with something else than a timeout.  A
    non-empty record that it returns is the one the task info request
    returned. *)
Theorem _fetch_tes_task_info_escapes (w : World) (uri : string)
  (resource_requirements : ResourceRequirementsDict) (timeout : PyValue) :
  match outcome (_fetch_tes_task_info w uri resource_requirements timeout) with
  | Raised e =>
      (tes_client_Client w uri = Raised e
       /\ unreachable_class (exc_class e) = false)
      \/ (tes_client_Client w uri = Returned tt
          /\ tes_getTaskInfo w uri timeout resource_requirements = Raised e
          /\ exc_class e <> TimeoutError)
  | Returned task_info =>
      task_info = []
      \/ (tes_client_Client w uri = Returned tt
          /\ tes_getTaskInfo w uri timeout resource_requirements
             = Returned task_info)
  end.
Proof.
  unfold _fetch_tes_task_info, external.
  destruct (tes_client_Client w uri) as [[]|[cls msg]] eqn:Hc.
  - destruct (tes_getTaskInfo w uri timeout resource_requirements)
      as [task_info|[cls msg]] eqn:Hi.
    + right. now split.
    + destruct cls; simpl; try (right; repeat split; discriminate).
      now left.
  - destruct cls; simpl; try (now left); left; now split.
Qed.

(** ** Several TES instances *)

(** X11: an exception that a per-instance call does not handle ends
    [fetch_tes_task_info] at that instance, with or without
    [check_results]: the instances before it have been contacted, the
    ones after it never are, and what the earlier instances answered is
    lost. *)
Theorem fetch_tes_task_info_propagates (w : World) (before after : list string)
  (uri : string) (resource_requirements : ResourceRequirementsDict)
  (check_results : bool) (timeout : PyValue) (e : Exception) :
  (forall u, u ∈ before ->
     exists task_info,
       outcome (_fetch_tes_task_info w u resource_requirements timeout)
       = Returned task_info) ->
  outcome (_fetch_tes_task_info w uri resource_requirements timeout) = Raised e ->
  let run :=
    fetch_tes_task_info w (before ++ uri :: after) resource_requirements
      check_results timeout in
  outcome run = Raised e
  /\ connections (trace run) = map (pair TES) (before ++ [uri]).
Proof.
  intros Hbefore Hraise run.
  assert (Hloop : forall acc,
    outcome (tes_instances_loop w (before ++ uri :: after)
               resource_requirements timeout acc) = Raised e
    /\ connections (trace (tes_instances_loop w (before ++ uri :: after)
                             resource_requirements timeout acc))
       = map (pair TES) (before ++ [uri])).
  { clear run. induction before as [|u before IH]; intros acc.
    - cbn [app tes_instances_loop map].
      pose proof (_fetch_tes_task_info_connections w resource_requirements
                    timeout uri) as Hc.
      destruct (_fetch_tes_task_info w uri resource_requirements timeout)
        as [tr o]. simpl in Hraise, Hc. subst o. now split.
    - destruct (Hbefore u) as [task_info Hti]; [apply elem_of_cons; now left|].
      cbn [app tes_instances_loop map].
      pose proof (_fetch_tes_task_info_connections w resource_requirements
                    timeout u) as Hc.
      destruct (_fetch_tes_task_info w u resource_requirements timeout)
        as [tr o]. simpl in Hti, Hc. subst o. cbn [bind].
      destruct (IH (fun u' Hu => Hbefore u' (proj2 (elem_of_cons _ _ _) (or_intror Hu)))
                   (if dict_truthy task_info then dict_set u task_info acc
                    else acc)) as [Ho Ht].
      destruct (tes_instances_loop w (before ++ uri :: after) _ _ _) as [tr' o'].
      simpl in Ho, Ht. cbn [outcome trace fst snd]. subst o'.
      split; [reflexivity|]. now rewrite connections_app, Hc, Ht. }
  destruct (Hloop []) as [Ho Ht].
  unfold run, fetch_tes_task_info.
  destruct (tes_instances_loop w (before ++ uri :: after) _ _ []) as [tr o].
  simpl in Ho, Ht. subst o. now split.
Qed.

Lemma fetch_tes_task_info_propagates_witness :
  outcome (fetch_tes_task_info Scenario2.flaky_repository
             (["A"] ++ "H" :: ["B"]) [] false (VInt 3))
  = Raised (Exc HTTPError "500")
  /\ connections (trace (fetch_tes_task_info Scenario2.flaky_repository
                           (["A"] ++ "H" :: ["B"]) [] false (VInt 3)))
     = [(TES, "A"); (TES, "H")].
Proof.
  apply (fetch_tes_task_info_propagates Scenario2.flaky_repository
           ["A"] ["B"] "H" [] false (VInt 3) (Exc HTTPError "500")).
  - intros u Hin.
    apply elem_of_cons in Hin as [->|Hin]; [eexists; reflexivity|].
    now apply elem_of_nil in Hin.
  - reflexivity.
Defined.

(** ** Several DRS instances *)

(** Without identifiers, one instance yields the empty dictionary or the
    connection failure it does not handle. *)
Lemma _fetch_drs_objects_metadata_empty_ids (w : World) (uri : string)
  (timeout : PyValue) :
  connections (trace (_fetch_drs_objects_metadata w uri [] timeout))
    = [(DRS, uri)]
  /\ match outcome (_fetch_drs_objects_metadata w uri [] timeout) with
     | Returned metadata => metadata = []
     | Raised e =>
         drs_client_Client w uri = Raised e
         /\ drs_unreachable_class (exc_class e) = false
     end.
Proof.
  unfold _fetch_drs_objects_metadata, external.
  destruct (drs_client_Client w uri) as [[]|[cls msg]].
  - split; reflexivity.
  - destruct cls; split; try reflexivity; now split.
Qed.

Lemma drs_instances_loop_no_ids (w : World) (drs_uris : list string)
  (check_results : bool) (timeout : PyValue) :
  exists tr o,
    drs_instances_loop
      (fun drs_uri => call__fetch_drs_objects_metadata w drs_uri [] timeout)
      drs_uris [] check_results [] = (tr, o)
    /\ match o with
       | Returned result_dict =>
           result_dict = [] /\ connections tr = map (pair DRS) drs_uris
       | Raised e =>
           exists drs_uri,
             drs_uri ∈ drs_uris /\ drs_client_Client w drs_uri = Raised e
             /\ drs_unreachable_class (exc_class e) = false
       end.
Proof.
  induction drs_uris as [|drs_uri drs_uris IH].
  - exists [], (Returned []). now split.
  - destruct IH as (tr' & o' & Heq & Hspec).
    cbn [drs_instances_loop]. unfold call__fetch_drs_objects_metadata at 1.
    cbn [bind_uri_ids lift bind fst snd].
    destruct (_fetch_drs_objects_metadata_empty_ids w drs_uri timeout) as [Hc Ho].
    destruct (_fetch_drs_objects_metadata w drs_uri [] timeout)
      as [tr [metadata|e]]; cbn [outcome trace fst snd] in Hc, Ho.
    + subst metadata. cbn [app bind dict_truthy].
      assert (Hcheck : (if check_results then check_availability [] []
                        else ret tt) = (ret tt : M unit))
        by now destruct check_results.
      rewrite Hcheck. cbn [bind ret app]. rewrite Heq.
      eexists _, _. split; [reflexivity|].
      destruct o' as [d|e].
      * destruct Hspec as [-> Hconn]. split; [reflexivity|].
        rewrite ?app_nil_r, !connections_app, Hc, Hconn. reflexivity.
      * destruct Hspec as (u & Hu & Hraise). exists u.
        split; [apply elem_of_cons; now right|exact Hraise].
    + cbn [app bind]. eexists _, _. split; [reflexivity|].
      exists drs_uri. split; [apply elem_of_cons; now left|exact Ho].
Qed.

(** X12: [fetch_drs_objects_metadata] never returns a non-empty mapping
    and never raises on its own account anything but a [TypeError].  If
    it returns, the result is empty.  If it raises, then either both
    lists are non-empty and the exception is the [TypeError] of the call
    on lines 59-63, or no identifier was asked for and the exception is
    one that [drs_client.Client] raised for one of the instances and that
    the per-instance handlers do not cover. *)
Theorem fetch_drs_objects_metadata_outcomes (w : World)
  (drs_uris drs_ids : list string) (jwt : option string)
  (check_results : bool) (timeout : PyValue) :
  match outcome (fetch_drs_objects_metadata w drs_uris drs_ids jwt
                   check_results timeout) with
  | Returned result_dict => result_dict = []
  | Raised e =>
      (drs_uris <> [] /\ drs_ids <> []
       /\ e = Exc TypeError
            "_fetch_drs_objects_metadata() got multiple values for argument 'uri'")
      \/ (drs_ids = []
          /\ exists drs_uri,
               drs_uri ∈ drs_uris /\ drs_client_Client w drs_uri = Raised e
               /\ drs_unreachable_class (exc_class e) = false)
  end.
Proof.
  destruct drs_ids as [|drs_id drs_ids].
  - unfold fetch_drs_objects_metadata.
    destruct (drs_instances_loop_no_ids w drs_uris check_results timeout)
      as (tr & o & Heq & Hspec).
    rewrite Heq. cbn [outcome snd]. destruct o as [d|e].
    + now destruct Hspec.
    + right. now split.
  - destruct drs_uris as [|drs_uri drs_uris]; [reflexivity|].
    rewrite fetch_drs_objects_metadata_misbinds. left. now repeat split.
Qed.

(** X13: with no identifier asked for, and every instance either
    connecting or failing in one of the handled ways,
    [fetch_drs_objects_metadata] contacts every instance once, in order,
    and returns the empty mapping, whatever [check_results] says. *)
Theorem fetch_drs_objects_metadata_without_ids (w : World) (drs_uris : list string)
  (jwt : option string) (check_results : bool) (timeout : PyValue) :
  (forall drs_uri e, drs_uri ∈ drs_uris ->
     drs_client_Client w drs_uri = Raised e ->
     drs_unreachable_class (exc_class e) = true) ->
  let run :=
    fetch_drs_objects_metadata w drs_uris [] jwt check_results timeout in
  outcome run = Returned []
  /\ connections (trace run) = map (pair DRS) drs_uris.
Proof.
  intros Hhandled run. unfold run, fetch_drs_objects_metadata.
  destruct (drs_instances_loop_no_ids w drs_uris check_results timeout)
    as (tr & o & Heq & Hspec).
  rewrite Heq. cbn [outcome trace fst snd]. destruct o as [d|e].
  - destruct Hspec as [-> Hc]. now split.
  - destruct Hspec as (u & Hu & Hraise & Hclass).
    rewrite (Hhandled u e Hu Hraise) in Hclass. discriminate.
Qed.

Lemma fetch_drs_objects_metadata_without_ids_witness :
  outcome (fetch_drs_objects_metadata Scenario2.flaky_repository
             ["A"; "H"; "B"] [] None true (VInt 3)) = Returned []
  /\ connections (trace (fetch_drs_objects_metadata Scenario2.flaky_repository
                           ["A"; "H"; "B"] [] None true (VInt 3)))
     = [(DRS, "A"); (DRS, "H"); (DRS, "B")].
Proof.
  apply (fetch_drs_objects_metadata_without_ids Scenario2.flaky_repository
           ["A"; "H"; "B"] None true (VInt 3)).
  intros drs_uri e Hin.
  repeat (apply elem_of_cons in Hin as [->|Hin]);
    [try discriminate; intros [= <-]; reflexivity ..|now apply elem_of_nil in Hin].
Defined.

(** ** Merging one instance's metadata *)

Lemma lookup2_set {V} (drs_id drs_uri k u : string) (v : V)
  (result_dict : PyDict (PyDict V)) :
  lookup2 drs_id drs_uri
    (dict_set k
       (dict_set u v
          (match dict_get k result_dict with
           | Some inner => inner
           | None => []
           end))
       result_dict)
  = if String.eqb drs_id k && String.eqb drs_uri u then Some v
    else lookup2 drs_id drs_uri result_dict.
Proof.
  unfold lookup2. rewrite dict_get_set.
  destruct (String.eqb_spec drs_id k) as [->|Hne]; [|reflexivity].
  rewrite dict_get_set. cbn [andb].
  destruct (String.eqb drs_uri u); [reflexivity|].
  now destruct (dict_get k result_dict).
Qed.

(** X14: merging the metadata of one instance (lines 65-70) files every
    record it reported under [result_dict[drs_id][drs_uri]] and touches
    nothing else: entries of other instances, and entries of objects this
    instance did not report, are what they were. *)
Theorem merge_metadata_lookup (drs_uri : string)
  (metadata : PyDict DrsObjectDict)
  (result_dict : PyDict (PyDict DrsObjectDict)) (drs_id u : string) :
  NoDup (dict_keys metadata) ->
  lookup2 drs_id u (merge_metadata drs_uri metadata result_dict)
  = if String.eqb u drs_uri
    then match dict_get drs_id metadata with
         | Some obj => Some obj
         | None => lookup2 drs_id u result_dict
         end
    else lookup2 drs_id u result_dict.
Proof.
  unfold merge_metadata. revert result_dict.
  induction metadata as [|[k obj] metadata IH]; intros result_dict Hnd.
  - simpl. now destruct (String.eqb u drs_uri).
  - cbn [dict_keys map fst] in Hnd. apply NoDup_cons in Hnd as [Hk Hnd].
    cbn [fold_left]. rewrite (IH _ Hnd), lookup2_set.
    cbn [dict_get].
    destruct (String.eqb_spec drs_id k) as [->|Hne]; cbn [andb].
    + assert (Hnone : dict_get k metadata = None).
      { clear -Hk. induction metadata as [|[k' o'] metadata IH]; [reflexivity|].
        cbn [dict_keys map fst] in Hk. simpl.
        destruct (String.eqb_spec k k') as [->|Hne].
        - exfalso. apply Hk. apply elem_of_cons. now left.
        - apply IH. intros Hin. apply Hk. apply elem_of_cons. now right. }
      rewrite Hnone. now destruct (String.eqb u drs_uri).
    + reflexivity.
Qed.

Lemma merge_metadata_lookup_witness :
  lookup2 "o1" "B"
    (merge_metadata "B" [("o1", Scenario.object_record "o1")]
       [("o1", [("A", Scenario.object_record "o1")])])
  = Some (Scenario.object_record "o1")
  /\ lookup2 "o1" "A"
       (merge_metadata "B" [("o1", Scenario.object_record "o1")]
          [("o1", [("A", Scenario.object_record "o1")])])
     = Some (Scenario.object_record "o1").
Proof.
  assert (Hnd : NoDup (dict_keys [("o1", Scenario.object_record "o1")])).
  { apply NoDup_cons. split; [apply not_elem_of_nil|constructor]. }
  split.
  - rewrite (merge_metadata_lookup "B" [("o1", Scenario.object_record "o1")]
               [("o1", [("A", Scenario.object_record "o1")])] "o1" "B" Hnd).
    reflexivity.
  - rewrite (merge_metadata_lookup "B" [("o1", Scenario.object_record "o1")]
               [("o1", [("A", Scenario.object_record "o1")])] "o1" "A" Hnd).
    reflexivity.
Defined.

(** ** Access URIs *)

Lemma dict_get_not_key {V} (k : string) (d : PyDict V) :
  k ∉ dict_keys d -> dict_get k d = None.
Proof.
  induction d as [|[k' v'] d IH]; [reflexivity|].
  cbn [dict_keys map fst]. intros Hk. simpl.
  destruct (String.eqb_spec k k') as [->|Hne].
  - exfalso. apply Hk. apply elem_of_cons. now left.
  - apply IH. intros Hin. apply Hk. apply elem_of_cons. now right.
Qed.

Lemma setattr_all_keys (kwargs self : PyDict PyValue) :
  NoDup (dict_keys kwargs) ->
  (forall k, k ∈ dict_keys kwargs -> k ∉ dict_keys self) ->
  dict_keys (fold_left (fun self '(k, v) => dict_set k v self) kwargs self)
  = dict_keys self ++ dict_keys kwargs.
Proof.
  revert self. induction kwargs as [|[k v] kwargs IH]; intros self Hnd Hdisj.
  - simpl. now rewrite app_nil_r.
  - cbn [dict_keys map fst] in Hnd, Hdisj. apply NoDup_cons in Hnd as [Hk Hnd].
    cbn [fold_left]. fold (@dict_keys PyValue) in *.
    assert (Hself : dict_keys (dict_set k v self) = dict_keys self ++ [k]).
    { rewrite dict_keys_set. rewrite decide_False; [reflexivity|].
      apply Hdisj. apply elem_of_cons. now left. }
    rewrite IH; [|exact Hnd|].
    + rewrite Hself, <- app_assoc. reflexivity.
    + intros k' Hk'. rewrite Hself, elem_of_app, elem_of_cons, elem_of_nil.
      intros [Hin|[->|[]]].
      * apply (Hdisj k'); [apply elem_of_cons; now right|exact Hin].
      * contradiction.
Qed.

Lemma setattr_all_get (kwargs self : PyDict PyValue) (k : string) :
  NoDup (dict_keys kwargs) ->
  dict_get k (fold_left (fun self '(k, v) => dict_set k v self) kwargs self)
  = match dict_get k kwargs with
    | Some v => Some v
    | None => dict_get k self
    end.
Proof.
  revert self. induction kwargs as [|[k0 v0] kwargs IH]; intros self Hnd.
  - reflexivity.
  - cbn [dict_keys map fst] in Hnd. apply NoDup_cons in Hnd as [Hk Hnd].
    cbn [fold_left dict_get]. rewrite (IH _ Hnd), dict_get_set.
    destruct (String.eqb_spec k k0) as [->|Hne]; [|reflexivity].
    now rewrite (dict_get_not_key k0 kwargs Hk).
Qed.

Lemma not_refused (k : string) :
  k ∉ AccessUris.refused ->
  String.eqb k "self" = false /\ String.eqb k "tes_uri" = false
  /\ String.eqb k "__class__" = false /\ String.eqb k "__dict__" = false
  /\ String.eqb k "__weakref__" = false.
Proof.
  unfold AccessUris.refused. rewrite !elem_of_cons, elem_of_nil.
  intros Hk. repeat split; apply String.eqb_neq; intros ->; tauto.
Qed.

Lemma bind_kwargs_accepts (kwargs : PyDict PyValue) :
  (forall k, k ∈ dict_keys kwargs -> k ∉ AccessUris.refused) ->
  AccessUris.bind_kwargs kwargs = Returned tt.
Proof.
  induction kwargs as [|[k v] kwargs IH]; intros Hk; [reflexivity|].
  cbn [dict_keys map fst] in Hk. simpl.
  destruct (not_refused k) as (Hs & Ht & _).
  { apply Hk. apply elem_of_cons. now left. }
  rewrite Hs, Ht. simpl. apply IH.
  intros k' Hk'. apply Hk. apply elem_of_cons. now right.
Qed.

Lemma setattr_items_accepts (kwargs : PyDict PyValue) (self : Attributes) :
  (forall k, k ∈ dict_keys kwargs -> k ∉ AccessUris.refused) ->
  AccessUris.setattr_items kwargs self
  = Returned (fold_left (fun self '(k, v) => dict_set k v self) kwargs self).
Proof.
  revert self. induction kwargs as [|[k v] kwargs IH]; intros self Hk;
    [reflexivity|].
  cbn [dict_keys map fst] in Hk. cbn [AccessUris.setattr_items fold_left].
  destruct (not_refused k) as (_ & _ & Hc & Hd & Hw).
  { apply Hk. apply elem_of_cons. now left. }
  unfold AccessUris.setattr. rewrite Hc, Hd, Hw. apply IH.
  intros k' Hk'. apply Hk. apply elem_of_cons. now right.
Qed.

Lemma setattr_items_refuses (kwargs : PyDict PyValue) (self : Attributes)
  (k : string) :
  k ∈ dict_keys kwargs ->
  k = "__class__" \/ k = "__dict__" \/ k = "__weakref__" ->
  exists e, AccessUris.setattr_items kwargs self = Raised e.
Proof.
  revert self. induction kwargs as [|[k0 v0] kwargs IH]; intros self Hin Hk.
  - now apply elem_of_nil in Hin.
  - cbn [dict_keys map fst] in Hin. cbn [AccessUris.setattr_items].
    destruct (AccessUris.setattr self k0 v0) as [self'|e] eqn:Hset;
      [|now exists e].
    apply elem_of_cons in Hin as [->|Hin]; [|now apply IH].
    exfalso. unfold AccessUris.setattr in Hset.
    destruct Hk as [-> | [-> | ->]]; simpl in Hset; discriminate.
Qed.

Lemma bind_kwargs_refuses (kwargs : PyDict PyValue) (k : string) :
  k ∈ dict_keys kwargs -> k = "self" \/ k = "tes_uri" ->
  exists e, AccessUris.bind_kwargs kwargs = Raised e.
Proof.
  induction kwargs as [|[k0 v0] kwargs IH]; intros Hin Hk.
  - now apply elem_of_nil in Hin.
  - cbn [dict_keys map fst] in Hin. cbn [AccessUris.bind_kwargs].
    destruct (String.eqb k0 "self" || String.eqb k0 "tes_uri") eqn:Hb;
      [eexists; reflexivity|].
    apply elem_of_cons in Hin as [->|Hin]; [|now apply IH].
    exfalso. destruct Hk as [->| ->]; simpl in Hb; discriminate.
Qed.

(** X15: a call [AccessUris(tes_uri, **kwargs)] whose keywords avoid the
    names [self], [tes_uri], [__class__], [__dict__] and [__weakref__]
    yields an instance that has exactly the attribute [tes_uri] followed
    by one attribute per keyword, in the order given; [tes_uri] reads
    back as given and every keyword reads back its value.  A call with
    one of the five names among its keywords raises. *)
Theorem AccessUris_new_attributes (tes_uri : string) (kwargs : PyDict PyValue) :
  NoDup (dict_keys kwargs) ->
  ((forall k, k ∈ dict_keys kwargs -> k ∉ AccessUris.refused) ->
   exists self,
     AccessUris.new tes_uri kwargs = Returned self
     /\ dict_keys self = "tes_uri" :: dict_keys kwargs
     /\ dict_get "tes_uri" self = Some (VStr tes_uri)
     /\ forall k, k <> "tes_uri" -> dict_get k self = dict_get k kwargs)
  /\ ((exists k, k ∈ dict_keys kwargs /\ k ∈ AccessUris.refused) ->
      exists e, AccessUris.new tes_uri kwargs = Raised e).
Proof.
  intros Hnd. split.
  - intros Hok.
    assert (Hfresh : "tes_uri" ∉ dict_keys kwargs).
    { intros Hin. apply (Hok _ Hin). unfold AccessUris.refused.
      rewrite !elem_of_cons. tauto. }
    eexists. split.
    { unfold AccessUris.new, AccessUris.__init__.
      rewrite (bind_kwargs_accepts kwargs Hok).
      apply (setattr_items_accepts kwargs _ Hok). }
    split; [|split].
    + rewrite setattr_all_keys; [reflexivity|exact Hnd|].
      intros k Hk. cbn [dict_keys map fst].
      rewrite elem_of_cons, elem_of_nil. intros [->|[]]. contradiction.
    + rewrite (setattr_all_get _ _ _ Hnd).
      now rewrite (dict_get_not_key "tes_uri" kwargs Hfresh).
    + intros k Hk. rewrite (setattr_all_get _ _ _ Hnd).
      destruct (dict_get k kwargs); [reflexivity|]. simpl.
      destruct (String.eqb_spec k "tes_uri"); [contradiction|reflexivity].
  - intros (k & Hin & Hk). unfold AccessUris.new, AccessUris.__init__.
    destruct (AccessUris.bind_kwargs kwargs) as [[]|e] eqn:Hb; [|now exists e].
    unfold AccessUris.refused in Hk.
    rewrite !elem_of_cons, elem_of_nil in Hk.
    destruct Hk as [Hk|[Hk|Hk]].
    + destruct (bind_kwargs_refuses kwargs k Hin (or_introl Hk)) as [e He].
      congruence.
    + destruct (bind_kwargs_refuses kwargs k Hin (or_intror Hk)) as [e He].
      congruence.
    + apply (setattr_items_refuses kwargs _ k Hin). tauto.
Qed.

Lemma AccessUris_new_attributes_witness :
  exists self,
    AccessUris.new "https://tes.example.org"
      [("o1", VStr "https://drs.example.org/o1")] = Returned self
    /\ dict_keys self = ["tes_uri"; "o1"]
    /\ dict_get "tes_uri" self = Some (VStr "https://tes.example.org").
Proof.
  assert (Hnd : NoDup (dict_keys [("o1", VStr "https://drs.example.org/o1")])).
  { apply NoDup_cons. split; [apply not_elem_of_nil|constructor]. }
  destruct (AccessUris_new_attributes "https://tes.example.org"
              [("o1", VStr "https://drs.example.org/o1")] Hnd)
    as [Hpos _].
  destruct Hpos as (self & Hnew & Hk & Hg & _).
  - intros k Hin. cbn [dict_keys map fst] in Hin.
    apply elem_of_cons in Hin as [->|Hin]; [|now apply elem_of_nil in Hin].
    unfold AccessUris.refused. rewrite !elem_of_cons, elem_of_nil.
    intros [H|[H|[H|[H|[H|[]]]]]]; discriminate.
  - exists self. split; [exact Hnew|]. split; [exact Hk|exact Hg].
Defined.

(** ** Default arguments *)

(** X16: every [DrsIds] built without argument holds the same list
    object.  An item appended to the list of one such instance is in the
    list of any other, built before or after; the default of [DrsUris]
    and a list passed by a caller are not affected. *)
Theorem DrsIds_default_is_shared (st : Store) (l : list PyValue) (x : PyValue) :
  st !! DrsIds_items_default = Some l ->
  let first := DrsIds.__init__ None in
  let st' := list_append (DrsIds.items first) x st in
  let second := DrsIds.__init__ None in
  st' !! DrsIds.items second = Some (l ++ [x])
  /\ st' !! DrsUris.items (DrsUris.__init__ None)
     = st !! DrsUris.items (DrsUris.__init__ None)
  /\ forall r : Ref,
       r <> DrsIds_items_default ->
       st' !! DrsIds.items (DrsIds.__init__ (Some r)) = st !! r.
Proof.
  intros Hl first st' second.
  unfold st', first, second, list_append, DrsIds.__init__, DrsUris.__init__.
  cbn [DrsIds.items DrsUris.items]. unfold Store, Ref in *.
  split; [|split].
  - now rewrite list_lookup_alter_eq, Hl.
  - now rewrite list_lookup_alter_ne by discriminate.
  - intros r Hr. rewrite list_lookup_alter_ne; [reflexivity|].
    intros Heq. apply Hr. now rewrite <- Heq.
Qed.

Lemma DrsIds_default_is_shared_witness :
  imported !! DrsIds_items_default = Some []
  /\ list_append (DrsIds.items (DrsIds.__init__ None)) (VStr "o1") imported
     !! DrsIds.items (DrsIds.__init__ None)
     = Some [VStr "o1"].
Proof.
  split; [reflexivity|].
  apply (DrsIds_default_is_shared imported [] (VStr "o1") eq_refl).
Defined.

(** ** Distance between two URLs *)

(** X17: when both hosts resolve, both addresses are located and the
    distance is computed, [ip_distance] makes its calls in the order
    parse and resolve [url1], parse and resolve [url2], locate the first
    address, locate the second (both with the key "free"), compute the
    distance between the two coordinate pairs; it then logs the result
    once at debug level and returns it: the place of the first address as
    "source", of the second as "destination", and the distance. *)
Theorem ip_distance_returns (w : Geo.World) (url1 url2 host1 host2 ip1 ip2 : string)
  (loc1 loc2 : Geo.Location) (km : PyValue) :
  Geo.urlparse_netloc w url1 = Returned host1 ->
  Geo.gethostbyname w host1 = Returned ip1 ->
  Geo.urlparse_netloc w url2 = Returned host2 ->
  Geo.gethostbyname w host2 = Returned ip2 ->
  Geo.DbIpCity_get w ip1 "free" = Returned loc1 ->
  Geo.DbIpCity_get w ip2 "free" = Returned loc2 ->
  Geo.geodesic_km w (Geo.latitude loc1, Geo.longitude loc1)
    (Geo.latitude loc2, Geo.longitude loc2) = Returned km ->
  let ret :=
    [("source", Geo.Place [("city", Geo.city loc1); ("region", Geo.region loc1);
                           ("country", Geo.country loc1)]);
     ("destination", Geo.Place [("city", Geo.city loc2);
                                ("region", Geo.region loc2);
                                ("country", Geo.country loc2)]);
     ("distance", Geo.Km km)] in
  Geo.ip_distance w url1 url2
  = ([Geo.Parse url1; Geo.Resolve host1; Geo.Parse url2; Geo.Resolve host2;
      Geo.Locate ip1 "free"; Geo.Locate ip2 "free";
      Geo.Geodesic (Geo.latitude loc1, Geo.longitude loc1)
        (Geo.latitude loc2, Geo.longitude loc2);
      Geo.Debug url1 url2 ret],
     Returned ret).
Proof.
  intros H1 H2 H3 H4 H5 H6 H7 ret.
  unfold Geo.ip_distance, Geo.call.
  rewrite H1. cbn [Geo.gbind Geo.try_reraise Geo.gret app].
  rewrite H2. cbn [Geo.gbind Geo.try_reraise Geo.gret app].
  rewrite H3. cbn [Geo.gbind Geo.try_reraise Geo.gret app].
  rewrite H4. cbn [Geo.gbind Geo.try_reraise Geo.gret app].
  rewrite H5. cbn [Geo.gbind Geo.try_reraise Geo.gret app].
  rewrite H6. cbn [Geo.gbind Geo.try_reraise Geo.gret app].
  rewrite H7. reflexivity.
Qed.

Lemma ip_distance_returns_witness :
  snd (Geo.ip_distance Scenario2.atlas "https://tes.example.org/api"
         "https://drs.example.org/api")
  = Returned
      [("source", Geo.Place [("city", VStr "Berlin"); ("region", VStr "Berlin");
                             ("country", VStr "DE")]);
       ("destination", Geo.Place [("city", VStr "Basel");
                                  ("region", VStr "Basel-Stadt");
                                  ("country", VStr "CH")]);
       ("distance", Geo.Km (VFloat 687.5))].
Proof.
  rewrite (ip_distance_returns Scenario2.atlas "https://tes.example.org/api"
             "https://drs.example.org/api" "tes.example.org" "drs.example.org"
             "192.0.2.1" "192.0.2.2" Scenario2.berlin Scenario2.basel
             (VFloat 687.5) eq_refl eq_refl eq_refl eq_refl eq_refl eq_refl
             eq_refl).
  reflexivity.
Defined.

(** X18: [ip_distance] stops at the first library call that fails and
    raises that call's exception, with nothing logged: a URL that does
    not parse, a host that does not resolve, an address that cannot be
    located, or a distance that cannot be computed ends the call there,
    and the calls after it are not made. *)
Theorem ip_distance_stops_at_first_failure (w : Geo.World) (url1 url2 : string)
  (e : Exception) :
  (Geo.urlparse_netloc w url1 = Raised e ->
   Geo.ip_distance w url1 url2 = ([Geo.Parse url1], Raised e))
  /\ (forall host1,
        Geo.urlparse_netloc w url1 = Returned host1 ->
        Geo.gethostbyname w host1 = Raised e ->
        Geo.ip_distance w url1 url2
        = ([Geo.Parse url1; Geo.Resolve host1], Raised e))
  /\ (forall host1 ip1,
        Geo.urlparse_netloc w url1 = Returned host1 ->
        Geo.gethostbyname w host1 = Returned ip1 ->
        Geo.urlparse_netloc w url2 = Raised e ->
        Geo.ip_distance w url1 url2
        = ([Geo.Parse url1; Geo.Resolve host1; Geo.Parse url2], Raised e))
  /\ (forall host1 ip1 host2,
        Geo.urlparse_netloc w url1 = Returned host1 ->
        Geo.gethostbyname w host1 = Returned ip1 ->
        Geo.urlparse_netloc w url2 = Returned host2 ->
        Geo.gethostbyname w host2 = Raised e ->
        Geo.ip_distance w url1 url2
        = ([Geo.Parse url1; Geo.Resolve host1; Geo.Parse url2;
            Geo.Resolve host2], Raised e))
  /\ (forall host1 ip1 host2 ip2,
        Geo.urlparse_netloc w url1 = Returned host1 ->
        Geo.gethostbyname w host1 = Returned ip1 ->
        Geo.urlparse_netloc w url2 = Returned host2 ->
        Geo.gethostbyname w host2 = Returned ip2 ->
        Geo.DbIpCity_get w ip1 "free" = Raised e ->
        Geo.ip_distance w url1 url2
        = ([Geo.Parse url1; Geo.Resolve host1; Geo.Parse url2;
            Geo.Resolve host2; Geo.Locate ip1 "free"], Raised e))
  /\ (forall host1 ip1 host2 ip2 loc1,
        Geo.urlparse_netloc w url1 = Returned host1 ->
        Geo.gethostbyname w host1 = Returned ip1 ->
        Geo.urlparse_netloc w url2 = Returned host2 ->
        Geo.gethostbyname w host2 = Returned ip2 ->
        Geo.DbIpCity_get w ip1 "free" = Returned loc1 ->
        Geo.DbIpCity_get w ip2 "free" = Raised e ->
        Geo.ip_distance w url1 url2
        = ([Geo.Parse url1; Geo.Resolve host1; Geo.Parse url2;
            Geo.Resolve host2; Geo.Locate ip1 "free"; Geo.Locate ip2 "free"],
           Raised e))
  /\ (forall host1 ip1 host2 ip2 loc1 loc2,
        Geo.urlparse_netloc w url1 = Returned host1 ->
        Geo.gethostbyname w host1 = Returned ip1 ->
        Geo.urlparse_netloc w url2 = Returned host2 ->
        Geo.gethostbyname w host2 = Returned ip2 ->
        Geo.DbIpCity_get w ip1 "free" = Returned loc1 ->
        Geo.DbIpCity_get w ip2 "free" = Returned loc2 ->
        Geo.geodesic_km w (Geo.latitude loc1, Geo.longitude loc1)
          (Geo.latitude loc2, Geo.longitude loc2) = Raised e ->
        Geo.ip_distance w url1 url2
        = ([Geo.Parse url1; Geo.Resolve host1; Geo.Parse url2;
            Geo.Resolve host2; Geo.Locate ip1 "free"; Geo.Locate ip2 "free";
            Geo.Geodesic (Geo.latitude loc1, Geo.longitude loc1)
              (Geo.latitude loc2, Geo.longitude loc2)],
           Raised e)).
Proof.
  unfold Geo.ip_distance, Geo.call.
  repeat split; intros;
    repeat match goal with
           | H : _ = _ |- _ =>
               rewrite H; clear H;
               cbn [Geo.gbind Geo.try_reraise Geo.gret app]
           end;
    reflexivity.
Qed.

Lemma ip_distance_stops_at_first_failure_witness :
  Geo.ip_distance Scenario2.atlas "https://tes.example.org/api"
    "https://elsewhere.example.org/api"
  = ([Geo.Parse "https://tes.example.org/api"; Geo.Resolve "tes.example.org";
      Geo.Parse "https://elsewhere.example.org/api";
      Geo.Resolve "nowhere.invalid"],
     Raised (Exc (OtherException "socket.gaierror") "Name or service not known")).
Proof.
  destruct (ip_distance_stops_at_first_failure Scenario2.atlas
              "https://tes.example.org/api" "https://elsewhere.example.org/api"
              (Exc (OtherException "socket.gaierror") "Name or service not known"))
    as (_ & _ & _ & Hresolve2 & _).
  apply (Hresolve2 "tes.example.org" "192.0.2.1" "nowhere.invalid");
    reflexivity.
Defined.

(** ** Several TES instances, in terms of the client *)

Lemma filter_ext_elem {A} (P Q : A -> Prop) `{forall x, Decision (P x)}
  `{forall x, Decision (Q x)} (l : list A) :
  (forall x, x ∈ l -> (P x <-> Q x)) -> filter P l = filter Q l.
Proof.
  induction l as [|x l IH]; intros Hext; [reflexivity|].
  assert (Hx : P x <-> Q x) by (apply Hext, elem_of_cons; now left).
  assert (Hl : filter P l = filter Q l).
  { apply IH. intros y Hy. apply Hext, elem_of_cons. now right. }
  destruct (decide (P x)) as [HP|HP].
  - rewrite !filter_cons_True by tauto. now rewrite Hl.
  - rewrite !filter_cons_False by tauto. exact Hl.
Qed.

(** For an instance whose client fails only in the handled ways, the
    per-instance call returns, and what it yields is what the client
    answered. *)
Lemma tes_handled_answer (w : World) (rr : ResourceRequirementsDict)
  (timeout : PyValue) (uri : string) :
  tes_handled w rr timeout uri ->
  (exists task_info,
     outcome (_fetch_tes_task_info w uri rr timeout) = Returned task_info)
  /\ tes_answer w rr timeout uri = tes_reply w rr timeout uri.
Proof.
  intros [Hconnect Hinfo].
  unfold tes_answer, tes_reply, _fetch_tes_task_info, external.
  destruct (tes_client_Client w uri) as [[]|[cls msg]] eqn:Hc.
  - destruct (tes_getTaskInfo w uri timeout rr) as [task_info|[cls msg]] eqn:Hi.
    + simpl. split; [now exists task_info|reflexivity].
    + specialize (Hinfo _ eq_refl eq_refl). simpl in Hinfo. subst cls.
      simpl. split; [now exists []|reflexivity].
  - specialize (Hconnect _ eq_refl). simpl in Hconnect.
    destruct cls; try discriminate; simpl; (split; [now exists []|reflexivity]).
Qed.

(** The task info request is made exactly when the connection was
    established. *)
Lemma _fetch_tes_task_info_requests (w : World) (rr : ResourceRequirementsDict)
  (timeout : PyValue) (uri : string) :
  task_info_requests (trace (_fetch_tes_task_info w uri rr timeout))
  = if tes_connects w uri then [uri] else [].
Proof.
  unfold tes_connects, _fetch_tes_task_info, external.
  destruct (tes_client_Client w uri) as [[]|[cls msg]]; simpl.
  - destruct (tes_getTaskInfo w uri timeout rr) as [r|[cls msg]]; simpl;
      [reflexivity|]. destruct cls; reflexivity.
  - destruct cls; reflexivity.
Qed.

Lemma task_info_requests_app (tr1 tr2 : list Event) :
  task_info_requests (tr1 ++ tr2)
  = task_info_requests tr1 ++ task_info_requests tr2.
Proof. apply flat_map_app. Qed.

(** C7, as amended: when the client of every instance fails only in the
    ways [_fetch_tes_task_info] handles (one of the five connection
    failures, or a timeout of the task info request),
    [fetch_tes_task_info] contacts every instance of [tes_uris] in
    order, requests the task info of every instance it connected to, and
    only then decides.  With [check_results] set and no instance
    answering with a non-empty record it raises the
    [ResourceUnavailableError]; otherwise it returns a dictionary whose
    keys are the instances whose request returned a non-empty record, in
    the order of their first occurrence, each once, mapped to that
    record. *)
Theorem fetch_tes_task_info_collects (w : World) (tes_uris : list string)
  (resource_requirements : ResourceRequirementsDict) (check_results : bool)
  (timeout : PyValue) :
  (forall uri, uri ∈ tes_uris ->
     tes_handled w resource_requirements timeout uri) ->
  let run :=
    fetch_tes_task_info w tes_uris resource_requirements check_results timeout in
  let answering :=
    filter (fun uri => is_Some (tes_reply w resource_requirements timeout uri))
      tes_uris in
  connections (trace run) = map (pair TES) tes_uris
  /\ task_info_requests (trace run) = List.filter (tes_connects w) tes_uris
  /\ (check_results = true -> answering = [] ->
      outcome run
      = Raised (Exc ResourceUnavailableError
                  "None of the specified TES instances provided any task info."))
  /\ (check_results = false \/ answering <> [] ->
      exists result_dict,
        outcome run = Returned result_dict
        /\ dict_keys result_dict = first_occurrences answering
        /\ NoDup (dict_keys result_dict)
        /\ forall uri,
             dict_get uri result_dict
             = if decide (uri ∈ tes_uris)
               then tes_reply w resource_requirements timeout uri
               else None).
Proof.
  intros Hhandled run answering.
  assert (Hret : forall uri, uri ∈ tes_uris ->
            exists task_info,
              outcome (_fetch_tes_task_info w uri resource_requirements timeout)
              = Returned task_info).
  { intros uri Hin.
    apply (tes_handled_answer w resource_requirements timeout uri (Hhandled uri Hin)). }
  assert (Hsame : forall uri, uri ∈ tes_uris ->
            tes_answer w resource_requirements timeout uri
            = tes_reply w resource_requirements timeout uri).
  { intros uri Hin.
    apply (tes_handled_answer w resource_requirements timeout uri (Hhandled uri Hin)). }
  assert (Hfilter :
    filter (fun uri => is_Some (tes_answer w resource_requirements timeout uri))
      tes_uris = answering).
  { apply filter_ext_elem. intros uri Hin. now rewrite (Hsame uri Hin). }
  destruct (fetch_tes_task_info_aggregates w tes_uris resource_requirements
              check_results timeout Hret) as (Hconn & Hnone & Hsome).
  fold run in Hconn, Hnone, Hsome. rewrite Hfilter in Hnone, Hsome.
  split; [exact Hconn|]. split; [|split; [exact Hnone|]].
  - unfold run, fetch_tes_task_info.
    rewrite (tes_instances_loop_spec w resource_requirements timeout tes_uris []
               Hret).
    cbn [bind].
    assert (Htr : forall o : M (PyDict TaskInfoDict), trace
              (let '(tr', o') := o in
               (flat_map
                  (fun uri =>
                     trace (_fetch_tes_task_info w uri resource_requirements
                              timeout)) tes_uris ++ tr', o'))
            = flat_map
                (fun uri =>
                   trace (_fetch_tes_task_info w uri resource_requirements
                            timeout)) tes_uris ++ trace o)
      by (intros [tr' o']; reflexivity).
    rewrite Htr.
    assert (Hcheck : forall d : PyDict TaskInfoDict,
              trace (if check_results && negb (dict_truthy d)
                     then raise (Exc ResourceUnavailableError
                            "None of the specified TES instances provided any task info.")
                     else ret d) = [])
      by (intros d; now destruct (check_results && negb (dict_truthy d))).
    rewrite Hcheck, app_nil_r.
    clear. induction tes_uris as [|uri tes_uris IH]; [reflexivity|].
    cbn [flat_map List.filter].
    rewrite task_info_requests_app, IH, _fetch_tes_task_info_requests.
    now destruct (tes_connects w uri).
  - intros Hcond. destruct (Hsome Hcond) as (d & Ho & Hk & Hnd & Hget).
    exists d. split; [exact Ho|]. split; [exact Hk|]. split; [exact Hnd|].
    intros uri. rewrite Hget.
    destruct (decide (uri ∈ tes_uris)) as [Hin|]; [|reflexivity].
    now apply Hsame.
Qed.

(** Three TES instances of which only "T2" accepts the connection: all
    three are contacted, one request is made, one entry is returned. *)
Lemma fetch_tes_task_info_collects_witness :
  connections (trace (fetch_tes_task_info Scenario.two_repositories
                        ["T1"; "T2"; "T3"] [] true (VInt 3)))
    = [(TES, "T1"); (TES, "T2"); (TES, "T3")]
  /\ task_info_requests (trace (fetch_tes_task_info Scenario.two_repositories
                                  ["T1"; "T2"; "T3"] [] true (VInt 3)))
     = ["T2"]
  /\ exists result_dict,
       outcome (fetch_tes_task_info Scenario.two_repositories
                  ["T1"; "T2"; "T3"] [] true (VInt 3))
       = Returned result_dict
       /\ dict_keys result_dict = ["T2"]
       /\ dict_get "T2" result_dict = Some Scenario.task_info_record.
Proof.
  assert (Hhandled : forall uri, uri ∈ ["T1"; "T2"; "T3"] ->
            tes_handled Scenario.two_repositories [] (VInt 3) uri).
  { intros uri Hin.
    repeat (apply elem_of_cons in Hin as [->|Hin]);
      [split; intros e; try discriminate; try (intros [= <-]; reflexivity);
       intros _; discriminate ..|].
    now apply elem_of_nil in Hin. }
  destruct (fetch_tes_task_info_collects Scenario.two_repositories
              ["T1"; "T2"; "T3"] [] true (VInt 3) Hhandled)
    as (Hconn & Hreq & _ & Hsome).
  split; [exact Hconn|]. split; [exact Hreq|].
  destruct Hsome as (result_dict & Hout & Hkeys & _ & Hget).
  - right. discriminate.
  - exists result_dict. split; [exact Hout|]. split; [exact Hkeys|].
    rewrite Hget. reflexivity.
Defined.

(** C7 as worded fails: a TES instance that accepts the connection and
    breaks it during the task info request makes [fetch_tes_task_info]
    raise the client's [ConnectionError], which is neither a mapping nor
    the [ResourceUnavailableError]. *)
Lemma fetch_tes_task_info_raises_client_error :
  outcome (fetch_tes_task_info Scenario2.breaking_tes ["T"] [] true (VInt 3))
    = Raised (Exc ConnectionError "connection reset")
  /\ ~ tes_aggregation_as_claimed Scenario2.breaking_tes ["T"] [] true (VInt 3).
Proof.
  assert (Hrun :
    outcome (fetch_tes_task_info Scenario2.breaking_tes ["T"] [] true (VInt 3))
    = Raised (Exc ConnectionError "connection reset")) by reflexivity.
  split; [exact Hrun|].
  unfold tes_aggregation_as_claimed. cbv zeta. rewrite Hrun.
  intros [(d & H & _)|(_ & _ & H)]; discriminate.
Qed.
